(** * labelous: the annotation XML exchange of [label_app/views.py]

    A shallow embedding of [get_annotation_xml] (export) and of
    [process_annotation_xml], [parse_annotation_xml], [post_annotation_xml]
    (import), over an explicit database state, followed by the properties of
    the exchange protocol. *)

From Stdlib Require Import ZArith String Ascii List Bool Lia.
From Stdlib.Strings Require Import Byte.
From stdpp Require Import base option gmap strings list fin_maps pretty.

Set Warnings "-register-all".
Local Open Scope Z_scope.
Local Open Scope string_scope.

#[global] Instance byte_eq_dec : EqDecision byte := Byte.byte_eq_dec.

(** ** The Python built-ins the views call

    [float], [int], [bytes.fromhex], [bytes.hex] and [str.format] belong to
    the language runtime, and the column default of [Polygon.locked] to
    [models.py]; the views are embedded over any implementation of them,
    [pyfloat] being the type of the float values.  [None] stands for the
    built-in raising ([ValueError]). *)
Class FloatType := { pyfloat : Type }.

Class Builtins {FT : FloatType} := {
  (** [x == y] on floats; not assumed reflexive (NaN) *)
  float_eq : pyfloat -> pyfloat -> bool;
  (** [float(s)] *)
  py_float : string -> option pyfloat;
  (** ["{:.2f}".format(x)] *)
  format_2f : pyfloat -> string;
  (** [int(s)] *)
  py_int : string -> option Z;
  (** [bytes.fromhex(s)] *)
  bytes_fromhex : string -> option (list byte);
  (** [b.hex()] *)
  bytes_hex : list byte -> string;
  (** the value a freshly constructed [models.Polygon] has in [locked] *)
  new_polygon_locked : bool;
}.

(** ** ElementTree elements *)

Inductive Element : Type :=
  Elem (tag : string) (text : option string) (children : list Element).

Definition tag (e : Element) : string := let 'Elem t _ _ := e in t.
Definition text (e : Element) : option string := let 'Elem _ x _ := e in x.
Definition children (e : Element) : list Element := let 'Elem _ _ c := e in c.

(** [e.find(t)]: the first direct child with tag [t], or [None]. *)
Definition find (e : Element) (t : string) : option Element :=
  List.find (fun c => String.eqb (tag c) t) (children e).

(** [e.findall(t)]: the direct children with tag [t], in document order. *)
Definition findall (e : Element) (t : string) : list Element :=
  List.filter (fun c => String.eqb (tag c) t) (children e).

(** [e.find(t).text] where the text is then used as a string: [None] when the
    child is missing ([AttributeError]) or has no text (the use raises). *)
Definition find_str (e : Element) (t : string) : option string :=
  find e t ≫= text.

(** The document with the [<verified>] children of its objects removed. *)
Definition strip_verified (obj_tag : Element) : Element :=
  Elem (tag obj_tag) (text obj_tag)
       (List.filter (fun c => negb (String.eqb (tag c) "verified")) (children obj_tag)).

Definition without_verified (root : Element) : Element :=
  Elem (tag root) (text root)
       (List.map (fun c => if String.eqb (tag c) "object" then strip_verified c else c)
                 (children root)).

(** ** Exceptions and outcomes *)

Inductive exn : Type :=
  | SuspiciousOperation (msg : string)
  | Http404 (msg : string)
  | KeyError
  | DoesNotExist
  | MultipleObjectsReturned
  | UnboundLocalError (name : string)
  | AttributeError
  | IndexError.

Inductive outcome (A : Type) : Type :=
  | Ok (a : A)
  | Raised (e : exn).
Arguments Ok {A} a.
Arguments Raised {A} e.

Definition endswith (s suffix : string) : bool :=
  let n := String.length s in
  let k := String.length suffix in
  (k <=? n)%nat && String.eqb (String.substring (n - k) k s) suffix.

(** [xml.sax.saxutils.escape] *)
Fixpoint xml_escape (s : string) : string :=
  match s with
  | EmptyString => EmptyString
  | String c rest =>
      let rest' := xml_escape rest in
      if Ascii.eqb c "&"%char then "&amp;" ++ rest'
      else if Ascii.eqb c "<"%char then "&lt;" ++ rest'
      else if Ascii.eqb c ">"%char then "&gt;" ++ rest'
      else String c rest'
  end.

(** Whether the character [c] occurs in [s]. *)
Fixpoint occurs (c : ascii) (s : string) : bool :=
  match s with
  | EmptyString => false
  | String d rest => Ascii.eqb d c || occurs c rest
  end.

Section Views.
Context {FT : FloatType} {B : Builtins}.

(** ** The data model *)

(** Modelled from the spec: [image_mgr/models.py] is not among the sources.
    A subject item; the views read its visibility flag. *)
Record Image := { visible : bool }.

(** Modelled from the spec: [models.py] is not among the sources.  An
    annotated entity: owner, subject item, freshness token ([edit_key]),
    locked and deleted flags, last edit time.  Its identity is the key of
    its row. *)
Record Annotation := {
  annotator : Z;
  image : Z;
  edit_key : list byte;
  a_locked : bool;
  a_deleted : bool;
  a_last_edit_time : Z;
}.

(** Modelled from the spec: [models.py] is not among the sources.  A
    record: owning entity, nullable position index, label, notes, occlusion
    flag, flat list of coordinates, locked and deleted flags, last edit
    time.  The label is held as the views can assign it, [None] included. *)
Record Polygon := {
  annotation : Z;
  anno_index : option Z;
  label_as_str : option string;
  notes : string;
  occluded : bool;
  points : list pyfloat;
  locked : bool;
  deleted : bool;
  last_edit_time : Z;
}.

(** The tables, keyed by primary key. *)
Record DB := {
  images : gmap Z Image;
  annotations : gmap Z Annotation;
  polygons : gmap Z Polygon;
}.

Definition set_annotations (f : gmap Z Annotation -> gmap Z Annotation) (db : DB) : DB :=
  {| images := images db; annotations := f (annotations db); polygons := polygons db |}.

Definition set_polygons (f : gmap Z Polygon -> gmap Z Polygon) (db : DB) : DB :=
  {| images := images db; annotations := annotations db; polygons := f (polygons db) |}.

Record Request := {
  user : Z;
  (** [request.body] as [defusedxml.ElementTree.fromstring] reads it; [None]
      when the parser raises *)
  body : option Element;
}.

(** ** Database-effect monad: state passing with exceptions *)

Definition M (A : Type) : Type := DB -> outcome A * DB.

Definition ret {A} (a : A) : M A := fun db => (Ok a, db).
Definition raise {A} (e : exn) : M A := fun db => (Raised e, db).
Definition bind {A C} (m : M A) (k : A -> M C) : M C :=
  fun db => match m db with
            | (Ok a, db') => k a db'
            | (Raised e, db') => (Raised e, db')
            end.
Definition modify (f : DB -> DB) : M unit := fun db => (Ok tt, f db).
Definition get_db : M DB := fun db => (Ok db, db).

(** [with transaction.atomic(): body]: an exception leaving the block rolls
    every write of the block back. *)
Definition atomic {A} (body : M A) : M A :=
  fun db => match body db with
            | (Ok a, db') => (Ok a, db')
            | (Raised e, _) => (Raised e, db)
            end.

(** [Model.objects.get(...)] over the rows selected by [P]. *)
Definition objects_get {A} (P : Z * A -> Prop) `{!forall r, Decision (P r)}
    (table : gmap Z A) : outcome (Z * A) :=
  match map_to_list (filter P table) with
  | [] => Raised DoesNotExist
  | [r] => Ok r
  | _ => Raised MultipleObjectsReturned
  end.

Notation "'let!' x ':=' m 'in' k" := (bind m (fun x => k))
  (at level 10, x pattern, m at level 100, k at level 200).

(** ** Import: reading the document *)

(** The first [try] block of [process_annotation_xml]: the image the
    document names.  [None] stands for any exception inside the block. *)
Definition lookup_image (db : DB) (root : Element) : option (Z * Image) :=
  filename ← find_str root "filename";
  if negb (String.prefix "img" filename) || negb (endswith filename ".jpg")
  then None
  else
    image_id ← py_int (String.substring 3 (String.length filename - 7) filename);
    image ← images db !! image_id;
    if negb (visible image) then None else Some (image_id, image).

(** The second [try] block: [anno_id] is read from the document, the
    annotation is fetched by requester and image. *)
Definition lookup_annotation (db : DB) (request : Request) (root : Element)
    (image_id : Z) : option (Z * Annotation) :=
  anno_id ← find_str root "c_anno_id" ≫= py_int;
  match objects_get (fun r => annotator r.2 = user request ∧ image r.2 = image_id
                              ∧ a_locked r.2 = false ∧ a_deleted r.2 = false)
                    (annotations db) with
  | Ok (pk, annotation) => if a_deleted annotation then None else Some (pk, annotation)
  | Raised _ => None
  end.

(** The third [try] block: the edit key of the document, which must be the
    stored one. *)
Definition read_edit_key (root : Element) (annotation : Annotation) : option (list byte) :=
  key ← find_str root "edit_key" ≫= bytes_fromhex;
  if bool_decide (key ≠ edit_key annotation) then None else Some key.

(** One [anno_polygon] ([types.SimpleNamespace]). *)
Record AnnoPolygon := {
  ap_id : option Z;
  ap_index : Z;
  ap_name : option string;
  ap_deleted : bool;
  ap_occluded : bool;
  ap_attributes : string;
  ap_points : list pyfloat;
}.

(** The [<pt>] loop; each coordinate goes through
    [float("{:.2f}".format(float(text)))]. *)
Definition round2 (s : string) : option pyfloat :=
  v ← py_float s; py_float (format_2f v).

Fixpoint parse_points (pts : list Element) : option (list pyfloat) :=
  match pts with
  | [] => Some []
  | point_tag :: rest =>
      x ← find_str point_tag "x" ≫= round2;
      y ← find_str point_tag "y" ≫= round2;
      more ← parse_points rest;
      Some (x :: y :: more)
  end.

(** The body of the [for obj_tag in root.findall("object")] loop, for one
    element; [None] stands for any exception inside its [try]. *)
Definition parse_object (obj_tag : Element) (anno_poly_ids : gset Z) (curr_index : Z)
    : option (AnnoPolygon * gset Z) :=
  '(id, ids) ← match find obj_tag "c_poly_id" with
               | None => Some (None, anno_poly_ids)
               | Some c =>
                   i ← text c ≫= py_int;
                   if bool_decide (i ∈ anno_poly_ids) then None
                   else Some (Some i, {[i]} ∪ anno_poly_ids)
               end;
  name ← text <$> find obj_tag "name";
  if bool_decide (name = Some "") then None else
  deleted ← find_str obj_tag "deleted" ≫= py_int;
  if negb (bool_decide (deleted = 0 ∨ deleted = 1)) then None else
  occluded ← find_str obj_tag "occluded";
  if negb (bool_decide (occluded = "no" ∨ occluded = "yes")) then None else
  let attributes := find obj_tag "attributes" ≫= text in
  pts ← (polygon ← find obj_tag "polygon"; parse_points (findall polygon "pt"));
  Some ({| ap_id := id;
           ap_index := curr_index;
           ap_name := name;
           ap_deleted := negb (bool_decide (deleted = 0));
           ap_occluded := negb (bool_decide (occluded = "no"));
           ap_attributes := default "" attributes;
           ap_points := pts |}, ids).

Fixpoint parse_objects (objs : list Element) (anno_poly_ids : gset Z) (curr_index : Z)
    : option (list AnnoPolygon) :=
  match objs with
  | [] => Some []
  | obj_tag :: rest =>
      '(anno_polygon, ids) ← parse_object obj_tag anno_poly_ids curr_index;
      more ← parse_objects rest ids (curr_index + 1);
      Some (anno_polygon :: more)
  end.

(** ** Import: the snapshot of the polygons *)

(** [annotation.polygons.filter(deleted=False)], mapped by primary key
    ([polygons_by_id]).  The values are the Python objects the loop later
    mutates. *)
Definition polygons_of (db : DB) (anno_pk : Z) : gmap Z Polygon :=
  filter (fun r => annotation r.2 = anno_pk ∧ deleted r.2 = false) (polygons db).

(** [polygons_by_index]: from file index to the object, held here as the key
    of the object in [polygons_by_id], so that both maps share the objects.
    A later row replaces an earlier one with the same index, as in the dict
    comprehension. *)
Definition index_polygons (polygons_by_id : gmap Z Polygon) : gmap Z Z :=
  foldl (fun m r => match anno_index r.2 with
                    | Some i => <[i := r.1]> m
                    | None => m
                    end) ∅ (map_to_list polygons_by_id).

(** ** Import: the loop over [anno_polygons] *)

(** What the [if anno_poly.id is not None: ... else: ...] statement leaves
    in [poly]: a loaded object (with its key), a new object, [continue], or
    the re-raised [KeyError]. *)
Inductive Matched : Type :=
  | Loaded (pk : Z) (poly : Polygon)
  | Created (poly : Polygon)
  | Continue
  | Reraise.

(** [models.Polygon(annotation=annotation, anno_index=anno_poly.index)]; the
    other columns, but [locked], are assigned before the object is saved. *)
Definition new_Polygon (anno_pk : Z) (index : Z) : Polygon :=
  {| annotation := anno_pk; anno_index := Some index; label_as_str := None;
     notes := ""; occluded := false; points := []; locked := new_polygon_locked;
     deleted := false; last_edit_time := 0 |}.

(** The look-up by index goes through the key to the shared object, which
    is always there ([index_polygons_sound]). *)
Definition match_polygon (anno_pk : Z) (polygons_by_id : gmap Z Polygon)
    (polygons_by_index : gmap Z Z) (anno_poly : AnnoPolygon) : Matched :=
  match ap_id anno_poly with
  | Some id =>
      match polygons_by_id !! id with
      | Some poly => Loaded id poly
      | None => if ap_deleted anno_poly then Continue else Reraise
      end
  | None =>
      match polygons_by_index !! ap_index anno_poly ≫= (fun pk => (pk,.) <$> polygons_by_id !! pk) with
      | Some (pk, poly) => Loaded pk poly
      | None =>
          if ap_deleted anno_poly then Continue
          else Created (new_Polygon anno_pk (ap_index anno_poly))
      end
  end.

(** [a != b] on two lists of floats. *)
Fixpoint points_ne (a b : list pyfloat) : bool :=
  match a, b with
  | [], [] => false
  | x :: a', y :: b' => negb (float_eq x y) || points_ne a' b'
  | _, _ => true
  end.

(** The [elif] chain, for a loaded polygon. *)
Definition differs (poly : Polygon) (anno_poly : AnnoPolygon) : bool :=
  if bool_decide (label_as_str poly ≠ ap_name anno_poly) then true
  else if bool_decide (notes poly ≠ ap_attributes anno_poly) then true
  else if bool_decide (occluded poly ≠ ap_occluded anno_poly) then true
  else if points_ne (points poly) (ap_points anno_poly) then true
  else if bool_decide (deleted poly ≠ ap_deleted anno_poly) then true
  else false.

(** The six assignments before [poly.save()]. *)
Definition assign (poly : Polygon) (anno_poly : AnnoPolygon) (now : Z) : Polygon :=
  {| annotation := annotation poly;
     anno_index := anno_index poly;
     label_as_str := ap_name anno_poly;
     notes := ap_attributes anno_poly;
     occluded := ap_occluded anno_poly;
     points := ap_points anno_poly;
     locked := locked poly;
     deleted := ap_deleted anno_poly;
     last_edit_time := now |}.

(** The key the database gives an inserted row. *)
Definition fresh_pk (table : gmap Z Polygon) : Z :=
  1 + map_fold (fun k _ acc => Z.max k acc) 0 table.

(** [poly.save()]: every column of the object is written to its row; an
    object without a key is inserted.  The constraints of the table are
    declared in [models.py], which is not among the sources: the write is
    taken to be accepted. *)
Definition save_polygon (pk : option Z) (poly : Polygon) : M unit :=
  modify (set_polygons (fun table => <[default (fresh_pk table) pk := poly]> table)).

(** The body of the [for anno_poly in anno_polygons] loop.  [objs] holds the
    loaded Python objects, [annotation_changed] the flag; [now] is the
    reading of [datetime.now(timezone.utc)], one reading standing for all
    the calls of a request. *)
Definition reconcile_one (anno_pk : Z) (polygons_by_index : gmap Z Z) (now : Z)
    (anno_poly : AnnoPolygon) (objs : gmap Z Polygon) (annotation_changed : bool)
    : M (gmap Z Polygon * bool) :=
  match match_polygon anno_pk objs polygons_by_index anno_poly with
  | Reraise => raise KeyError
  | Continue => ret (objs, annotation_changed)
  | Created poly =>
      let! _ := save_polygon None (assign poly anno_poly now) in
      ret (objs, true)
  | Loaded pk poly =>
      if differs poly anno_poly then
        let poly' := assign poly anno_poly now in
        let! _ := save_polygon (Some pk) poly' in
        ret (<[pk := poly']> objs, true)
      else ret (objs, annotation_changed)
  end.

Fixpoint reconcile (anno_pk : Z) (polygons_by_index : gmap Z Z) (now : Z)
    (anno_polygons : list AnnoPolygon) (objs : gmap Z Polygon)
    (annotation_changed : bool) : M (gmap Z Polygon * bool) :=
  match anno_polygons with
  | [] => ret (objs, annotation_changed)
  | anno_poly :: rest =>
      let! st := reconcile_one anno_pk polygons_by_index now anno_poly objs annotation_changed in
      reconcile anno_pk polygons_by_index now rest st.1 st.2
  end.

Definition set_last_edit_time (now : Z) (a : Annotation) : Annotation :=
  {| annotator := annotator a; image := image a; edit_key := edit_key a;
     a_locked := a_locked a; a_deleted := a_deleted a; a_last_edit_time := now |}.

(** The block under [with transaction.atomic()]. *)
Definition commit (anno_pk : Z) (key : list byte) (anno_polygons : list AnnoPolygon)
    (polygons_by_id : gmap Z Polygon) (polygons_by_index : gmap Z Z) (now : Z) : M unit :=
  let! db := get_db in
  match annotations db !! anno_pk with
  | None => raise DoesNotExist
  | Some annotation =>
      if bool_decide (key ≠ edit_key annotation)
      then raise (SuspiciousOperation "invalid edit key")
      else
        let! st :=
          reconcile anno_pk polygons_by_index now anno_polygons polygons_by_id false in
        if st.2
        then modify (set_annotations (alter (set_last_edit_time now) anno_pk))
        else ret tt
  end.

(** ** Import: the three views *)

(** [snapshot] is the database as the statements before the transaction
    read it; the state threaded through [M] is the database when the
    transaction opens.  A request that runs alone has both equal
    ([alone]). *)
Definition process_annotation_xml (snapshot : DB) (request : Request) (root : Element)
    (now : Z) : M unit :=
  if negb (String.eqb (tag root) "annotation")
  then raise (SuspiciousOperation "not an annotation")
  else
  match lookup_image snapshot root with
  | None => raise (SuspiciousOperation "invalid image")
  | Some (image_id, _) =>
    match lookup_annotation snapshot request root image_id with
    | None => raise (SuspiciousOperation "invalid anno id")
    | Some (anno_pk, annotation) =>
      match read_edit_key root annotation with
      | None => raise (SuspiciousOperation "invalid edit key")
      | Some key =>
        match parse_objects (findall root "object") ∅ 0 with
        | None => raise (SuspiciousOperation "invalid polygon")
        | Some anno_polygons =>
            let polygons_by_id := polygons_of snapshot anno_pk in
            let polygons_by_index := index_polygons polygons_by_id in
            atomic (commit anno_pk key anno_polygons polygons_by_id polygons_by_index now)
        end
      end
    end
  end.

Definition parse_annotation_xml (snapshot : DB) (request : Request) (now : Z) : M unit :=
  match body request with
  | None => raise (SuspiciousOperation "xml parse failed")
  | Some xml =>
      fun db =>
        match process_annotation_xml snapshot request xml now db with
        | (Raised (SuspiciousOperation msg), db') => (Raised (SuspiciousOperation msg), db')
        | (Raised _, db') => (Raised (SuspiciousOperation "xml process failed"), db')
        | (Ok tt, db') => (Ok tt, db')
        end
  end.

Definition post_annotation_xml (snapshot : DB) (request : Request) (now : Z) : M string :=
  let! _ := parse_annotation_xml snapshot request now in
  ret "<nop/>".

(** A request served with no other request in between. *)
Definition alone {A} (view : DB -> M A) : M A := fun db => view db db.

(** ** Export *)

Definition set_edit_key (key : list byte) (a : Annotation) : Annotation :=
  {| annotator := annotator a; image := image a; edit_key := key;
     a_locked := a_locked a; a_deleted := a_deleted a;
     a_last_edit_time := a_last_edit_time a |}.

Definition clear_index (p : Polygon) : Polygon :=
  {| annotation := annotation p; anno_index := None; label_as_str := label_as_str p;
     notes := notes p; occluded := occluded p; points := points p; locked := locked p;
     deleted := deleted p; last_edit_time := last_edit_time p |}.

(** [polygons.filter(anno_index__isnull=False).update(anno_index=None)] *)
Definition clear_indices (anno_pk : Z) (table : gmap Z Polygon) : gmap Z Polygon :=
  (fun p => if bool_decide (annotation p = anno_pk ∧ deleted p = false ∧ anno_index p ≠ None)
            then clear_index p else p) <$> table.

(** The [for pi in range(0, len(points), 2)] loop. *)
Fixpoint points_xml (pts : list pyfloat) : outcome (list string) :=
  match pts with
  | [] => Ok []
  | [_] => Raised IndexError
  | x :: y :: rest =>
      match points_xml rest with
      | Ok more => Ok (("<pt><x>" +:+ format_2f x +:+ "</x><y>" +:+ format_2f y +:+ "</y></pt>") :: more)
      | Raised e => Raised e
      end
  end.

(** The strings appended for one polygon. *)
Definition polygon_xml (annotation : Annotation) (pk : Z) (polygon : Polygon)
    : outcome (list string) :=
  match label_as_str polygon with
  | None => Raised AttributeError
  | Some label =>
      match points_xml (points polygon) with
      | Raised e => Raised e
      | Ok pts =>
          Ok (["<object>";
               "<c_poly_id>" +:+ pretty pk +:+ "</c_poly_id>";
               "<name>" +:+ xml_escape label +:+ "</name>";
               "<deleted>0</deleted><verified>"
                 +:+ (if locked polygon || a_locked annotation then "1" else "0")
                 +:+ "</verified>";
               "<occluded>" +:+ (if occluded polygon then "yes" else "no") +:+ "</occluded>";
               "<attributes>" +:+ xml_escape (notes polygon) +:+ "</attributes>";
               "<polygon><username>hi</username>"]
              ++ pts ++ ["</polygon></object>"])%list
      end
  end.

Fixpoint polygons_xml (annotation : Annotation) (rows : list (Z * Polygon))
    : outcome (list string) :=
  match rows with
  | [] => Ok []
  | (pk, polygon) :: rest =>
      match polygon_xml annotation pk polygon with
      | Raised e => Raised e
      | Ok x =>
          match polygons_xml annotation rest with
          | Raised e => Raised e
          | Ok more => Ok (x ++ more)%list
          end
      end
  end.

(** [edit_key] is the value [secrets.token_bytes(16)] returns. *)
Definition get_annotation_xml (request : Request) (image_id : Z) (key : list byte)
    : M (list string) :=
  let! db := get_db in
  match images db !! image_id with
  | None =>
      (* [exists = False], then [image.visible] reads the unbound [image] *)
      raise (UnboundLocalError "image")
  | Some img =>
      if negb (visible img) then raise (Http404 "Annotation does not exist.")
      else
        match objects_get (fun r => annotator r.2 = user request ∧ image r.2 = image_id
                                    ∧ a_deleted r.2 = false) (annotations db) with
        | Raised DoesNotExist => raise (Http404 "Annotation does not exist.")
        | Raised e => raise e
        | Ok (pk, annotation) =>
            let annotation := set_edit_key key annotation in
            let! _ := modify (set_annotations (insert pk annotation)) in
            let! _ := modify (set_polygons (clear_indices pk)) in
            let! db' := get_db in
            match polygons_xml annotation (map_to_list (polygons_of db' pk)) with
            | Raised e => raise e
            | Ok objects =>
                ret (["<annotation>";
                      "<c_anno_id>" +:+ pretty pk +:+ "</c_anno_id>";
                      "<edit_key>" +:+ bytes_hex key +:+ "</edit_key>";
                      "<filename>img" +:+ pretty image_id +:+ ".jpg</filename><folder>f</folder>"]
                     ++ objects ++ ["</annotation>"])%list
            end
        end
  end.

(** ** Notions used to state the properties *)

(** The annotation an import works on: the one the statements before the
    edit-key check resolve. *)
Definition target (snapshot : DB) (request : Request) (root : Element)
    : option (Z * Annotation) :=
  if negb (String.eqb (tag root) "annotation") then None
  else r ← lookup_image snapshot root; lookup_annotation snapshot request root r.1.

(** The edit key the document carries. *)
Definition submitted_key (root : Element) : option (list byte) :=
  find_str root "edit_key" ≫= bytes_fromhex.


(** The columns of a polygon that the import never assigns. *)
Definition kept (p p' : Polygon) : Prop :=
  annotation p' = annotation p ∧ anno_index p' = anno_index p ∧ locked p' = locked p.

(** A row that [models.Polygon(annotation=annotation, anno_index=...)] and
    the assignments of the loop produce. *)
Definition created_by (anno_pk now : Z) (p : Polygon) : Prop :=
  annotation p = anno_pk ∧ is_Some (anno_index p)
  ∧ locked p = new_polygon_locked ∧ last_edit_time p = now.

(** The loaded objects agree with their rows and belong to the annotation. *)
Definition in_sync (anno_pk : Z) (objs : gmap Z Polygon) (db : DB) : Prop :=
  objs ⊆ polygons db ∧ ∀ pk p, objs !! pk = Some p -> annotation p = anno_pk.

(** What part of the loop may do to the objects and to the tables. *)
Record evolves (anno_pk now : Z) (objs : gmap Z Polygon) (db : DB)
    (objs' : gmap Z Polygon) (db' : DB) : Prop := {
  ev_images : images db' = images db;
  ev_annotations : annotations db' = annotations db;
  ev_dom : dom objs' = dom objs;
  ev_objs : ∀ pk p, objs !! pk = Some p -> ∃ p', objs' !! pk = Some p' ∧ kept p p';
  ev_rows : ∀ pk p, polygons db !! pk = Some p ->
      ∃ p', polygons db' !! pk = Some p' ∧ kept p p'
            ∧ (p' = p ∨ (pk ∈ dom objs ∧ last_edit_time p' = now));
  ev_new : ∀ pk p', polygons db !! pk = None -> polygons db' !! pk = Some p' ->
      created_by anno_pk now p';
}.

(** An identity that is not that of a polygon the import loads: no such
    row, a row of another annotation, or a deleted row. *)
Definition foreign (db : DB) (anno_pk id : Z) : Prop :=
  match polygons db !! id with
  | None => True
  | Some p => annotation p ≠ anno_pk ∨ deleted p = true
  end.

(** The same submitted polygon, found at another place of the document. *)
Definition at_position (k : Z) (x : AnnoPolygon) : AnnoPolygon :=
  {| ap_id := ap_id x; ap_index := k; ap_name := ap_name x;
     ap_deleted := ap_deleted x; ap_occluded := ap_occluded x;
     ap_attributes := ap_attributes x; ap_points := ap_points x |}.

(** The identity an object element claims: what the [c_poly_id] branch of
    the loop reads. *)
Definition claimed_id (obj_tag : Element) : option Z :=
  c ← find obj_tag "c_poly_id"; text c ≫= py_int.

(** Every stored polygon has its coordinates in pairs. *)
Definition even_points (db : DB) : Prop :=
  ∀ pk p, polygons db !! pk = Some p -> Nat.Even (length (points p)).

(** Among the non-deleted polygons of an annotation, a file index
    designates at most one. *)
Definition indices_unique (db : DB) (anno_pk : Z) : Prop :=
  ∀ pk1 p1 pk2 p2 i,
    polygons_of db anno_pk !! pk1 = Some p1 -> polygons_of db anno_pk !! pk2 = Some p2 ->
    anno_index p1 = Some i -> anno_index p2 = Some i -> pk1 = pk2.

(** The rows that were not in [db0] carry a file index below [k] that the
    index map does not hold, and no two of them carry the same. *)
Definition created_rows_indexed (db0 : DB) (by_index : gmap Z Z) (db : DB) (k : Z) : Prop :=
  ∀ pk p, polygons db0 !! pk = None -> polygons db !! pk = Some p ->
    ∃ i, anno_index p = Some i ∧ by_index !! i = None ∧ i < k.

Definition created_rows_distinct (db0 db : DB) : Prop :=
  ∀ pk1 p1 pk2 p2,
    polygons db0 !! pk1 = None -> polygons db0 !! pk2 = None ->
    polygons db !! pk1 = Some p1 -> polygons db !! pk2 = Some p2 ->
    anno_index p1 = anno_index p2 -> pk1 = pk2.

(** The row [q'] holds what the submitted polygon [x] says; its coordinates
    are the submitted ones, or those of [q] when the comparison found no
    difference at all. *)
Definition applied (q q' : Polygon) (x : AnnoPolygon) : Prop :=
  label_as_str q' = ap_name x ∧ notes q' = ap_attributes x
  ∧ occluded q' = ap_occluded x ∧ deleted q' = ap_deleted x
  ∧ (points q' = ap_points x
     ∨ (q' = q ∧ points_ne (points q) (ap_points x) = false)).

(** The messages of the [SuspiciousOperation]s the import views raise. *)
Definition import_messages : list string :=
  ["xml parse failed"; "not an annotation"; "invalid image"; "invalid anno id";
   "invalid edit key"; "invalid polygon"; "xml process failed"].

End Views.

(** ** An implementation of the built-ins, for evaluating the views

    Integers and key bytes in plain ASCII notation; a coordinate is a decimal
    numeral, held exactly as a number of hundredths (rounded half to even). *)
Module Plain.

Definition digit (c : ascii) : option Z :=
  let n := Z.of_nat (nat_of_ascii c) in
  if ((48 <=? n) && (n <=? 57))%Z then Some (n - 48) else None.

Fixpoint digits (s : string) (acc : Z) : option Z :=
  match s with
  | EmptyString => Some acc
  | String c rest => d ← digit c; digits rest (10 * acc + d)
  end.

Definition unsigned (s : string) : option Z :=
  match s with
  | EmptyString => None
  | _ => digits s 0
  end.

Definition int (s : string) : option Z :=
  match s with
  | String "-" rest => Z.opp <$> unsigned rest
  | String "+" rest => unsigned rest
  | _ => unsigned s
  end.

Fixpoint split_dot (s : string) : string * string :=
  match s with
  | EmptyString => (EmptyString, EmptyString)
  | String c rest =>
      if Ascii.eqb c "."%char then (EmptyString, rest)
      else let '(a, b) := split_dot rest in (String c a, b)
  end.

Definition half_even (n d : Z) : Z :=
  let q := n / d in
  let r := n mod d in
  if (2 * r <? d)%Z then q
  else if (d <? 2 * r)%Z then q + 1
  else if Z.even q then q else q + 1.

Definition magnitude (s : string) : option Z :=
  let '(ip, fp) := split_dot s in
  i ← unsigned ip;
  f ← digits fp 0;
  let scale := 10 ^ Z.of_nat (String.length fp) in
  Some (half_even ((i * scale + f) * 100) scale).

Definition float (s : string) : option Z :=
  match s with
  | String "-" rest => Z.opp <$> magnitude rest
  | _ => magnitude s
  end.

Fixpoint decimal_go (fuel : nat) (n : Z) (acc : string) : string :=
  match fuel with
  | O => acc
  | S fuel' =>
      let acc' := String (ascii_of_nat (48 + Z.to_nat (n mod 10))) acc in
      if (n <? 10)%Z then acc' else decimal_go fuel' (n / 10) acc'
  end.

(** The decimal numeral of a natural number. *)
Definition decimal (n : Z) : string :=
  decimal_go (S (Z.to_nat (Z.log2 n))) n EmptyString.

Definition two_decimals (h : Z) : string :=
  let a := Z.abs h in
  (if (h <? 0)%Z then "-" else "")
    +:+ decimal (a / 100) +:+ "." +:+ decimal (a mod 100 / 10) +:+ decimal (a mod 10).

Definition hexval (c : ascii) : option N :=
  let n := N_of_ascii c in
  if ((48 <=? n) && (n <=? 57))%N then Some (n - 48)%N
  else if ((97 <=? n) && (n <=? 102))%N then Some (n - 87)%N
  else if ((65 <=? n) && (n <=? 70))%N then Some (n - 55)%N
  else None.

Fixpoint fromhex (s : string) : option (list byte) :=
  match s with
  | EmptyString => Some []
  | String a (String b rest) =>
      h ← hexval a; l ← hexval b;
      x ← Byte.of_N (16 * h + l);
      (x ::.) <$> fromhex rest
  | _ => None
  end.

Definition hexdigit (n : N) : ascii :=
  ascii_of_N (if (n <? 10)%N then n + 48 else n + 87)%N.

Fixpoint hex (b : list byte) : string :=
  match b with
  | [] => EmptyString
  | x :: rest =>
      let n := Byte.to_N x in
      String (hexdigit (n / 16)) (String (hexdigit (n mod 16)) (hex rest))
  end.

Definition hundredths : FloatType := {| pyfloat := Z |}.

Definition builtins : @Builtins hundredths :=
  @Build_Builtins hundredths Z.eqb float two_decimals int fromhex hex false.

End Plain.

(** ** A small database and some documents, for evaluating the views *)
Module Fixture.

#[local] Existing Instance Plain.hundredths.
#[local] Existing Instance Plain.builtins.

Definition mk_polygon (anno_pk : Z) (index : option Z) (label : string) (t : Z) : Polygon :=
  {| annotation := anno_pk; anno_index := index; label_as_str := Some label;
     notes := ""; occluded := false; points := [100; 200]; locked := false;
     deleted := false; last_edit_time := t |}.

Definition mk_annotation (u img : Z) (k : list byte) : Annotation :=
  {| annotator := u; image := img; edit_key := k; a_locked := false;
     a_deleted := false; a_last_edit_time := 0 |}.

(** Annotation 5 of user 10 and annotation 6 of user 11, both on image 1;
    polygon 7 belongs to annotation 5, polygon 8 to annotation 6. *)
Definition db0 : DB :=
  {| images := {[1 := {| visible := true |}]};
     annotations := {[5 := mk_annotation 10 1 [xab; xcd]; 6 := mk_annotation 11 1 [x01; x02]]};
     polygons := {[7 := mk_polygon 5 (Some 3) "cat" 0; 8 := mk_polygon 6 None "bird" 0]} |}.

(** Polygons 7 and 10 of annotation 5; polygon 10 was created in the running
    session at file index 0. *)
Definition db_indexed : DB :=
  {| images := {[1 := {| visible := true |}]};
     annotations := {[5 := mk_annotation 10 1 [xab; xcd]]};
     polygons := {[7 := mk_polygon 5 None "cat" 0; 10 := mk_polygon 5 (Some 0) "fox" 0]} |}.

Definition leaf (t s : string) : Element := Elem t (Some s) [].

Definition object (id : option string) (name : Element) (del : string) : Element :=
  Elem "object" None
    ((match id with Some i => [leaf "c_poly_id" i] | None => [] end)
     ++ [name; leaf "deleted" del; leaf "verified" "0"; leaf "occluded" "no";
         Elem "attributes" None [];
         Elem "polygon" None
           [leaf "username" "hi";
            Elem "pt" None [leaf "x" "1.00"; leaf "y" "2.00"]]])%list.

Definition document (anno_id key : string) (objects : list Element) : Element :=
  Elem "annotation" None
    ([leaf "c_anno_id" anno_id; leaf "edit_key" key; leaf "filename" "img1.jpg";
      leaf "folder" "f"] ++ objects)%list.

Definition as_user (u : Z) (doc : Element) : Request := {| user := u; body := Some doc |}.

(** A new polygon, then an identity of another annotation. *)
Definition doc_new_then_foreign : Element :=
  document "5" "abcd" [object None (leaf "name" "dog") "0";
                       object (Some "8") (leaf "name" "bird") "0"].

(** The right annotation and image, an edit key that is not the stored one. *)
Definition doc_stale : Element :=
  document "5" "abce" [object (Some "7") (leaf "name" "dog") "0"].

(** An annotation identity that names no annotation. *)
Definition doc_wrong_anno : Element :=
  document "999" "abcd" [object (Some "7") (leaf "name" "dog") "0"].

(** A label element with no text, as [<name/>] or [<name></name>] parse. *)
Definition doc_no_label : Element :=
  document "5" "abcd" [object (Some "7") (Elem "name" None []) "0"].

(** The same, on a new polygon that is marked deleted. *)
Definition doc_no_label_deleted : Element :=
  document "5" "abcd" [object None (Elem "name" None []) "1"].

(** The session of the new-record scenario: export with key [0a0b], then
    the exported polygon followed by a new one, then the same with the new
    one relabelled. *)
Definition session_key : list byte := [x0a; x0b].

Definition doc_append : Element :=
  document "5" "0a0b" [object (Some "7") (leaf "name" "cat") "0";
                       object None (leaf "name" "dog") "0"].

Definition doc_relabel : Element :=
  document "5" "0a0b" [object (Some "7") (leaf "name" "cat") "0";
                       object None (leaf "name" "wolf") "0"].

Definition import (u : Z) (doc : Element) (now : Z) : M unit :=
  alone (fun s => process_annotation_xml s (as_user u doc) doc now).

Definition export (u : Z) (image_id : Z) (key : list byte) : M (list string) :=
  get_annotation_xml {| user := u; body := None |} image_id key.

(** The states of the session. *)
Definition db1 : DB := (export 10 1 session_key db0).2.
Definition db2 : DB := (import 10 doc_append 50 db1).2.
Definition db3 : DB := (import 10 doc_relabel 60 db2).2.

(** The two submitted polygons of [doc_new_then_foreign]. *)
Definition new_child : AnnoPolygon :=
  {| ap_id := None; ap_index := 0; ap_name := Some "dog"; ap_deleted := false;
     ap_occluded := false; ap_attributes := ""; ap_points := [100; 200] |}.

Definition foreign_child : AnnoPolygon :=
  {| ap_id := Some 8; ap_index := 1; ap_name := Some "bird"; ap_deleted := false;
     ap_occluded := false; ap_attributes := ""; ap_points := [100; 200] |}.

(** A submitted polygon that carries the identity of polygon 7. *)
Definition known_child : AnnoPolygon :=
  {| ap_id := Some 7; ap_index := 0; ap_name := Some "dog"; ap_deleted := false;
     ap_occluded := false; ap_attributes := ""; ap_points := [100; 200] |}.

(** Two objects that claim the identity of polygon 7. *)
Definition doc_duplicate : Element :=
  document "5" "abcd" [object (Some "7") (leaf "name" "cat") "0";
                       object (Some "7") (leaf "name" "dog") "0"].

(** The exported polygon with another label. *)
Definition doc_edit : Element :=
  document "5" "0a0b" [object (Some "7") (leaf "name" "lion") "0"].

Definition edited_child : AnnoPolygon :=
  {| ap_id := Some 7; ap_index := 0; ap_name := Some "lion"; ap_deleted := false;
     ap_occluded := false; ap_attributes := ""; ap_points := [100; 200] |}.

(** The submitted polygons of [doc_append]. *)
Definition appended : list AnnoPolygon :=
  [{| ap_id := Some 7; ap_index := 0; ap_name := Some "cat"; ap_deleted := false;
      ap_occluded := false; ap_attributes := ""; ap_points := [100; 200] |};
   {| ap_id := None; ap_index := 1; ap_name := Some "dog"; ap_deleted := false;
      ap_occluded := false; ap_attributes := ""; ap_points := [100; 200] |}].

(** Annotation 5 with a polygon that has no label. *)
Definition db_unlabelled : DB :=
  {| images := {[1 := {| visible := true |}]};
     annotations := {[5 := mk_annotation 10 1 [xab; xcd]]};
     polygons := {[7 := {| annotation := 5; anno_index := None; label_as_str := None;
                           notes := ""; occluded := false; points := [100; 200];
                           locked := false; deleted := false; last_edit_time := 0 |}]} |}.

(** A polygon whose label and notes hold markup characters. *)
Definition markup_polygon : Polygon :=
  {| annotation := 5; anno_index := None; label_as_str := Some "a<b>c";
     notes := "x&y<z"; occluded := false; points := [100; 200];
     locked := false; deleted := false; last_edit_time := 0 |}.

(** The document of the first export of the session. *)
Definition exported : list string :=
  match (export 10 1 session_key db0).1 with Ok xml => xml | Raised _ => [] end.

(** Polygon 7 as another writer locks it after the export. *)
Definition lock_polygon (p : Polygon) : Polygon :=
  {| annotation := annotation p; anno_index := anno_index p;
     label_as_str := label_as_str p; notes := notes p; occluded := occluded p;
     points := points p; locked := true; deleted := deleted p;
     last_edit_time := last_edit_time p |}.

Definition db1_locked : DB := set_polygons (alter lock_polygon 7) db1.

End Fixture.

(** * Properties *)

Section Properties.
Context {FT : FloatType} {B : Builtins}.

(** ** Roll-back *)

Lemma atomic_raised {A} (body : M A) db e db' :
  atomic body db = (Raised e, db') -> db' = db.
Proof.
  unfold atomic. destruct (body db) as [[a|e'] d]; intros [= ]; congruence.
Qed.

Lemma atomic_ok {A} (body : M A) db a db' :
  atomic body db = (Ok a, db') -> body db = (Ok a, db').
Proof.
  unfold atomic. destruct (body db) as [[a'|e'] d]; intros [= ]; congruence.
Qed.

Lemma process_annotation_xml_raised snapshot request root now db e db' :
  process_annotation_xml snapshot request root now db = (Raised e, db') -> db' = db.
Proof.
  unfold process_annotation_xml, raise.
  repeat case_match; try (intros [= ]; congruence).
  apply atomic_raised.
Qed.

Lemma parse_annotation_xml_raised snapshot request now db e db' :
  parse_annotation_xml snapshot request now db = (Raised e, db') -> db' = db.
Proof.
  unfold parse_annotation_xml, raise.
  destruct (body request) as [xml|]; [|intros [= ]; congruence].
  destruct (process_annotation_xml snapshot request xml now db) as [[[]|e0] d] eqn:E.
  - intros [= ].
  - apply process_annotation_xml_raised in E. destruct e0; intros [= ]; congruence.
Qed.

(** C1: an import that ends in an error, raised anywhere from the XML parse
    to the loop under the lock (the second edit-key check included), leaves
    the database exactly as the transaction found it. *)
Theorem import_error_writes_nothing snapshot request now db e db' :
  post_annotation_xml snapshot request now db = (Raised e, db') -> db' = db.
Proof.
  unfold post_annotation_xml, bind.
  destruct (parse_annotation_xml snapshot request now db) as [[u|e0] d] eqn:E.
  - intros [= ].
  - intros [= ]. subst. eapply parse_annotation_xml_raised; eauto.
Qed.

(** ** The edit key *)

Lemma read_edit_key_spec root a :
  read_edit_key root a = if bool_decide (submitted_key root = Some (edit_key a))
                         then Some (edit_key a) else None.
Proof.
  unfold read_edit_key, submitted_key.
  destruct (find_str root "edit_key" ≫= bytes_fromhex) as [k|]; simpl.
  - repeat case_bool_decide; congruence.
  - done.
Qed.

Lemma target_Some snapshot request root anno_pk a :
  target snapshot request root = Some (anno_pk, a) ->
  String.eqb (tag root) "annotation" = true ∧
  ∃ image_id img, lookup_image snapshot root = Some (image_id, img) ∧
    lookup_annotation snapshot request root image_id = Some (anno_pk, a).
Proof.
  unfold target. destruct (String.eqb (tag root) "annotation"); simpl; [|done].
  destruct (lookup_image snapshot root) as [[image_id img]|]; simpl; [|done].
  eauto.
Qed.

Lemma edit_key_mismatch_raises snapshot request root now db anno_pk a :
  target snapshot request root = Some (anno_pk, a) ->
  submitted_key root ≠ Some (edit_key a)
  ∨ (parse_objects (findall root "object") ∅ 0 ≠ None
     ∧ ∃ a', annotations db !! anno_pk = Some a'
             ∧ submitted_key root ≠ Some (edit_key a')) ->
  process_annotation_xml snapshot request root now db
  = (Raised (SuspiciousOperation "invalid edit key"), db).
Proof.
  intros (Htag & image_id & img & Himg & Hanno)%target_Some Hstale.
  unfold process_annotation_xml. rewrite Htag, Himg, Hanno. simpl.
  rewrite read_edit_key_spec.
  case_bool_decide as Hfast; [|done].
  destruct Hstale as [Hne|(Hparse & a' & Ha' & Hne)]; [done|].
  destruct (parse_objects (findall root "object") ∅ 0) as [aps|]; [|done].
  unfold atomic, commit, bind, get_db. rewrite Ha'.
  rewrite bool_decide_eq_true_2; [done|].
  intros Heq. apply Hne. by rewrite Hfast, Heq.
Qed.

(** ** The snapshot and its two maps *)

Lemma fresh_pk_fresh (table : gmap Z Polygon) : table !! fresh_pk table = None.
Proof.
  assert (Hub : ∀ k, is_Some (table !! k) -> (k ≤ map_fold (fun k _ acc => Z.max k acc) 0 table)%Z).
  { apply (map_fold_weak_ind (fun r (m : gmap Z Polygon) => ∀ k, is_Some (m !! k) -> (k ≤ r)%Z)).
    - intros k [x Hx]. by rewrite lookup_empty in Hx.
    - intros i x m r Hi IH k [y Hy].
      destruct (decide (i = k)) as [->|Hne]; [lia|].
      rewrite lookup_insert_ne in Hy by done.
      specialize (IH k (ex_intro _ y Hy)). lia. }
  destruct (table !! fresh_pk table) eqn:E; [|done].
  specialize (Hub _ (ex_intro _ _ E)). unfold fresh_pk in Hub. lia.
Qed.

Lemma polygons_of_lookup db anno_pk pk p :
  polygons_of db anno_pk !! pk = Some p
  <-> polygons db !! pk = Some p ∧ annotation p = anno_pk ∧ deleted p = false.
Proof. unfold polygons_of. rewrite map_lookup_filter_Some. simpl. tauto. Qed.

Lemma polygons_of_subseteq db anno_pk : polygons_of db anno_pk ⊆ polygons db.
Proof. apply map_filter_subseteq. Qed.

Lemma index_fold_sound (rows : list (Z * Polygon)) (acc : gmap Z Z) i pk :
  foldl (fun m r => match anno_index r.2 with
                    | Some i => <[i := r.1]> m
                    | None => m
                    end) acc rows !! i = Some pk ->
  acc !! i = Some pk ∨ ∃ p, (pk, p) ∈ rows ∧ anno_index p = Some i.
Proof.
  revert acc. induction rows as [|[k q] rows IH]; intros acc; simpl; [by left|].
  intros [Hacc|(p & Hin & Hp)]%IH.
  - destruct (anno_index q) as [j|] eqn:Ej; [|by left].
    destruct (decide (j = i)) as [->|Hne].
    + rewrite lookup_insert_eq in Hacc. injection Hacc as ->.
      right. exists q. split; [left|done].
    + rewrite lookup_insert_ne in Hacc by done. by left.
  - right. exists p. split; [by right|done].
Qed.


(** An index of [polygons_by_index] leads to an object of [polygons_by_id]
    that has this index. *)
Lemma index_polygons_sound (by_id : gmap Z Polygon) i pk :
  index_polygons by_id !! i = Some pk ->
  ∃ p, by_id !! pk = Some p ∧ anno_index p = Some i.
Proof.
  intros [H|(p & Hin & Hp)]%index_fold_sound.
  - by rewrite lookup_empty in H.
  - exists p. split; [|done]. by apply elem_of_map_to_list.
Qed.


Lemma index_polygons_none (by_id : gmap Z Polygon) i :
  (∀ pk p, by_id !! pk = Some p -> anno_index p ≠ Some i) ->
  index_polygons by_id !! i = None.
Proof.
  intros Hnone. destruct (index_polygons by_id !! i) as [pk|] eqn:E; [|done].
  apply index_polygons_sound in E as (p & Hp & Hi). by destruct (Hnone pk p).
Qed.

(** ** The loop *)

Lemma kept_refl p : kept p p.
Proof. by unfold kept. Qed.

Lemma kept_trans p q r : kept p q -> kept q r -> kept p r.
Proof. unfold kept. intros (? & ? & ?) (? & ? & ?). repeat split; congruence. Qed.

Lemma kept_assign poly anno_poly now : kept poly (assign poly anno_poly now).
Proof. by unfold kept. Qed.

Lemma evolves_refl anno_pk now objs db : evolves anno_pk now objs db objs db.
Proof.
  split; try done.
  - intros pk p Hp. exists p. auto using kept_refl.
  - intros pk p Hp. exists p. auto using kept_refl.
  - intros pk p' H1 H2. congruence.
Qed.

Lemma evolves_trans anno_pk now objs db objs1 db1 objs2 db2 :
  evolves anno_pk now objs db objs1 db1 ->
  evolves anno_pk now objs1 db1 objs2 db2 ->
  evolves anno_pk now objs db objs2 db2.
Proof.
  intros [I1 A1 D1 O1 R1 N1] [I2 A2 D2 O2 R2 N2]. split.
  - congruence.
  - congruence.
  - congruence.
  - intros pk p Hp. destruct (O1 _ _ Hp) as (p1 & Hp1 & K1).
    destruct (O2 _ _ Hp1) as (p2 & Hp2 & K2). eauto using kept_trans.
  - intros pk p Hp. destruct (R1 _ _ Hp) as (p1 & Hp1 & K1 & C1).
    destruct (R2 _ _ Hp1) as (p2 & Hp2 & K2 & C2).
    exists p2. split; [done|]. split; [eauto using kept_trans|].
    destruct C2 as [->|[Hin Ht]].
    + destruct C1 as [->|[Hin Ht]]; [by left|by right].
    + right. split; [|done]. destruct C1 as [_|[Hin1 _]]; [|done].
      by rewrite <- D1.
  - intros pk p2 Hnone Hp2.
    destruct (polygons db1 !! pk) as [p1|] eqn:E1.
    + destruct (N1 _ _ Hnone E1) as (Ha & Hi & Hl & Ht).
      destruct (R2 _ _ E1) as (p2' & Hp2' & (Ka & Ki & Kl) & C2).
      assert (p2' = p2) as -> by congruence.
      unfold created_by. rewrite Ka, Ki, Kl. repeat split; try done.
      by destruct C2 as [->|[_ ?]].
    + eauto.
Qed.

Lemma match_polygon_Loaded anno_pk objs by_index anno_poly pk poly :
  match_polygon anno_pk objs by_index anno_poly = Loaded pk poly ->
  objs !! pk = Some poly.
Proof.
  unfold match_polygon. destruct (ap_id anno_poly) as [id|].
  - destruct (objs !! id) eqn:E; [congruence|]. by destruct (ap_deleted anno_poly).
  - destruct (by_index !! ap_index anno_poly) as [k|]; simpl.
    + destruct (objs !! k) eqn:E; simpl; [congruence|].
      by destruct (ap_deleted anno_poly).
    + by destruct (ap_deleted anno_poly).
Qed.

Lemma match_polygon_Created anno_pk objs by_index anno_poly poly :
  match_polygon anno_pk objs by_index anno_poly = Created poly ->
  poly = new_Polygon anno_pk (ap_index anno_poly) ∧ ap_id anno_poly = None
  ∧ ap_deleted anno_poly = false.
Proof.
  unfold match_polygon. destruct (ap_id anno_poly) as [id|].
  - destruct (objs !! id); [done|]. by destruct (ap_deleted anno_poly).
  - destruct (by_index !! ap_index anno_poly ≫= _) as [[k q]|]; [done|].
    destruct (ap_deleted anno_poly); [done|]. by intros [= <-].
Qed.

Lemma reconcile_one_ok anno_pk by_index now anno_poly objs ch db objs' ch' db' :
  in_sync anno_pk objs db ->
  reconcile_one anno_pk by_index now anno_poly objs ch db = (Ok (objs', ch'), db') ->
  in_sync anno_pk objs' db' ∧ evolves anno_pk now objs db objs' db'
  ∧ (ch = true -> ch' = true) ∧ (polygons db' = polygons db ∨ ch' = true).
Proof.
  intros [Hsub Hanno]. unfold reconcile_one.
  destruct (match_polygon anno_pk objs by_index anno_poly) as [pk poly|poly| |] eqn:Em.
  - apply match_polygon_Loaded in Em.
    assert (Hrow : polygons db !! pk = Some poly) by (by eapply lookup_weaken).
    destruct (differs poly anno_poly).
    + unfold bind, save_polygon, modify, ret. simpl. intros [= <- <- <-].
      split; [|split; [|by auto]].
      * split; simpl.
        -- by apply insert_mono.
        -- intros k q. destruct (decide (pk = k)) as [->|Hne].
           ++ rewrite lookup_insert_eq. intros [= <-]. simpl. eauto.
           ++ rewrite lookup_insert_ne by done. eauto.
      * split; simpl; try done.
        -- apply dom_insert_lookup_L. eauto.
        -- intros k q Hq. destruct (decide (pk = k)) as [->|Hne].
           ++ rewrite lookup_insert_eq. eexists. split; [done|].
              assert (q = poly) as -> by congruence. apply kept_assign.
           ++ rewrite lookup_insert_ne by done. eauto using kept_refl.
        -- intros k q Hq. destruct (decide (pk = k)) as [->|Hne].
           ++ rewrite lookup_insert_eq. eexists. split; [done|].
              assert (q = poly) as -> by congruence. split; [apply kept_assign|].
              right. split; [|done]. apply elem_of_dom. eauto.
           ++ rewrite lookup_insert_ne by done. eauto using kept_refl.
        -- intros k q Hnone. destruct (decide (pk = k)) as [->|Hne]; [congruence|].
           rewrite lookup_insert_ne by done. congruence.
    + unfold ret. intros [= <- <- <-].
      split; [done|]. split; [apply evolves_refl|]. auto.
  - apply match_polygon_Created in Em as (-> & _ & _).
    unfold bind, save_polygon, modify, ret. simpl. intros [= <- <- <-].
    pose proof (fresh_pk_fresh (polygons db)) as Hfresh.
    split; [|split; [|by auto]].
    + split; simpl; [|done]. apply insert_subseteq_r; [|done].
      by eapply lookup_weaken_None.
    + split; simpl; try done.
      * intros k q Hq. eauto using kept_refl.
      * intros k q Hq. rewrite lookup_insert_ne by congruence. eauto using kept_refl.
      * intros k q Hnone. destruct (decide (fresh_pk (polygons db) = k)) as [<-|Hne].
        -- rewrite lookup_insert_eq. intros [= <-]. unfold created_by. simpl. eauto.
        -- rewrite lookup_insert_ne by done. congruence.
  - unfold ret. intros [= <- <- <-].
    split; [done|]. split; [apply evolves_refl|]. auto.
  - unfold raise. intros [= ].
Qed.

Lemma reconcile_ok anno_pk by_index now anno_polygons objs ch db objs' ch' db' :
  in_sync anno_pk objs db ->
  reconcile anno_pk by_index now anno_polygons objs ch db = (Ok (objs', ch'), db') ->
  in_sync anno_pk objs' db' ∧ evolves anno_pk now objs db objs' db'
  ∧ (ch = true -> ch' = true) ∧ (polygons db' = polygons db ∨ ch' = true).
Proof.
  revert objs ch db. induction anno_polygons as [|ap rest IH]; intros objs ch db Hsync; simpl.
  - unfold ret. intros [= <- <- <-]. split; [done|]. split; [apply evolves_refl|]. auto.
  - unfold bind.
    destruct (reconcile_one anno_pk by_index now ap objs ch db) as [[[objs1 ch1]|e] db1] eqn:E1;
      [|intros [= ]].
    simpl. intros E2.
    apply reconcile_one_ok in E1 as (S1 & Ev1 & C1 & P1); [|done].
    apply IH in E2 as (S2 & Ev2 & C2 & P2); [|done].
    split; [done|]. split; [eauto using evolves_trans|]. split; [auto|].
    destruct P2 as [P2|P2]; [|by right].
    destruct P1 as [P1|P1]; [left; congruence|right; auto].
Qed.

Lemma reconcile_one_raised anno_pk by_index now anno_poly objs ch db e db' :
  reconcile_one anno_pk by_index now anno_poly objs ch db = (Raised e, db') ->
  e = KeyError.
Proof.
  unfold reconcile_one, bind, save_polygon, modify, ret, raise.
  repeat case_match; simpl; intros [= ]; congruence.
Qed.

Lemma reconcile_raised anno_pk by_index now anno_polygons objs ch db e db' :
  reconcile anno_pk by_index now anno_polygons objs ch db = (Raised e, db') ->
  e = KeyError.
Proof.
  revert objs ch db. induction anno_polygons as [|ap rest IH]; intros objs ch db; simpl.
  - unfold ret. intros [= ].
  - unfold bind.
    destruct (reconcile_one anno_pk by_index now ap objs ch db) as [[st|e1] db1] eqn:E1.
    + apply IH.
    + intros [= <- <-]. by eapply reconcile_one_raised.
Qed.

(** ** What a successful import did *)

Lemma objects_get_Ok {A} (P : Z * A -> Prop) `{!∀ r, Decision (P r)}
    (table : gmap Z A) pk a :
  objects_get P table = Ok (pk, a) ->
  table !! pk = Some a ∧ P (pk, a)
  ∧ ∀ pk' a', table !! pk' = Some a' -> P (pk', a') -> pk' = pk ∧ a' = a.
Proof.
  unfold objects_get.
  destruct (map_to_list (filter P table)) as [|r [|r' l]] eqn:E; try done.
  intros [= ->].
  assert (Hin : ∀ pk' a', (pk', a') ∈ map_to_list (filter P table)
                          <-> table !! pk' = Some a' ∧ P (pk', a')).
  { intros pk' a'. by rewrite elem_of_map_to_list, map_lookup_filter_Some. }
  rewrite E in Hin.
  destruct (proj1 (Hin pk a)) as [H1 H2]; [left|].
  split; [done|]. split; [done|].
  intros pk' a' H1' H2'.
  assert (Hmem : (pk', a') ∈ [(pk, a)]) by (apply Hin; done).
  apply list_elem_of_singleton in Hmem. by injection Hmem.
Qed.

Lemma lookup_annotation_Some db request root image_id anno_pk a :
  lookup_annotation db request root image_id = Some (anno_pk, a) ->
  annotations db !! anno_pk = Some a
  ∧ annotator a = user request ∧ image a = image_id
  ∧ a_locked a = false ∧ a_deleted a = false.
Proof.
  unfold lookup_annotation.
  destruct (find_str root "c_anno_id" ≫= py_int) as [anno_id|]; simpl; [|done].
  destruct (objects_get _ (annotations db)) as [[pk x]|e] eqn:E; [|done].
  apply objects_get_Ok in E as (Hrow & HP & _). simpl in HP.
  destruct (a_deleted x) eqn:Ed; [done|]. intros [= -> ->]. tauto.
Qed.

Lemma process_annotation_xml_ok snapshot request root now db db' :
  process_annotation_xml snapshot request root now db = (Ok tt, db') ->
  ∃ anno_pk a a' anno_polygons objs' ch' db1,
    target snapshot request root = Some (anno_pk, a)
    ∧ submitted_key root = Some (edit_key a)
    ∧ parse_objects (findall root "object") ∅ 0 = Some anno_polygons
    ∧ annotations db !! anno_pk = Some a' ∧ edit_key a' = edit_key a
    ∧ reconcile anno_pk (index_polygons (polygons_of snapshot anno_pk)) now
        anno_polygons (polygons_of snapshot anno_pk) false db = (Ok (objs', ch'), db1)
    ∧ db' = if ch' then set_annotations (alter (set_last_edit_time now) anno_pk) db1
            else db1.
Proof.
  unfold process_annotation_xml, target, raise.
  destruct (String.eqb (tag root) "annotation"); simpl; [|done].
  destruct (lookup_image snapshot root) as [[image_id img]|]; simpl; [|done].
  destruct (lookup_annotation snapshot request root image_id) as [[anno_pk a]|]; [|done].
  rewrite read_edit_key_spec. case_bool_decide as Hkey; [|done].
  destruct (parse_objects (findall root "object") ∅ 0) as [aps|]; [|done].
  intros Hc%atomic_ok. revert Hc.
  unfold commit, bind, get_db, raise.
  destruct (annotations db !! anno_pk) as [a'|] eqn:Ea'; [|done].
  case_bool_decide as Hkey'; [done|].
  destruct (reconcile _ _ _ _ _ _ db) as [[[objs' ch']|e] db1] eqn:Er; [|done].
  simpl. intros Hfin.
  exists anno_pk, a, a', aps, objs', ch', db1.
  repeat split; try done.
  destruct ch'; unfold modify, ret in Hfin; by injection Hfin.
Qed.

Lemma in_sync_snapshot db anno_pk : in_sync anno_pk (polygons_of db anno_pk) db.
Proof.
  split; [apply polygons_of_subseteq|].
  intros pk p Hp. by apply polygons_of_lookup in Hp as (_ & ? & _).
Qed.

(** ** The [<verified>] element is not read *)

Lemma find_strip_verified obj_tag t :
  String.eqb t "verified" = false -> find (strip_verified obj_tag) t = find obj_tag t.
Proof.
  intros Ht. unfold find, strip_verified. simpl.
  induction (children obj_tag) as [|c l IH]; simpl; [done|].
  destruct (String.eqb (tag c) "verified") eqn:Ev; simpl.
  - apply String.eqb_eq in Ev.
    destruct (String.eqb (tag c) t) eqn:Et; [|done].
    apply String.eqb_eq in Et. rewrite <- Et, Ev in Ht. done.
  - by rewrite IH.
Qed.

Lemma parse_object_strip_verified obj_tag ids i :
  parse_object (strip_verified obj_tag) ids i = parse_object obj_tag ids i.
Proof.
  unfold parse_object, find_str. by rewrite !find_strip_verified.
Qed.

Lemma parse_objects_strip_verified objs ids i :
  parse_objects (List.map strip_verified objs) ids i = parse_objects objs ids i.
Proof.
  revert ids i. induction objs as [|o l IH]; intros ids i; simpl; [done|].
  rewrite parse_object_strip_verified.
  destruct (parse_object o ids i) as [[ap ids']|]; simpl; [|done].
  by rewrite IH.
Qed.

Lemma find_without_verified root t :
  String.eqb t "object" = false -> find (without_verified root) t = find root t.
Proof.
  intros Ht. unfold find, without_verified. simpl.
  induction (children root) as [|c l IH]; simpl; [done|].
  destruct (String.eqb (tag c) "object") eqn:Eo; simpl.
  - apply String.eqb_eq in Eo. rewrite Eo.
    destruct (String.eqb "object" t) eqn:Et; [|done].
    apply String.eqb_eq in Et. by rewrite <- Et in Ht.
  - by rewrite IH.
Qed.

Lemma findall_without_verified root :
  findall (without_verified root) "object"
  = List.map strip_verified (findall root "object").
Proof.
  unfold findall, without_verified. simpl.
  induction (children root) as [|c l IH]; simpl; [done|].
  destruct (String.eqb (tag c) "object") eqn:Eo; simpl; rewrite Eo; simpl; by rewrite IH.
Qed.

Lemma process_without_verified snapshot request root now db :
  process_annotation_xml snapshot request (without_verified root) now db
  = process_annotation_xml snapshot request root now db.
Proof.
  unfold process_annotation_xml, lookup_image, lookup_annotation, read_edit_key, find_str.
  rewrite !find_without_verified by done.
  rewrite findall_without_verified, parse_objects_strip_verified.
  done.
Qed.

(** ** Matching by identity *)

Lemma match_polygon_by_id anno_pk objs by_index anno_poly id :
  ap_id anno_poly = Some id ->
  match_polygon anno_pk objs by_index anno_poly
  = match objs !! id with
    | Some poly => Loaded id poly
    | None => if ap_deleted anno_poly then Continue else Reraise
    end.
Proof. unfold match_polygon. by intros ->. Qed.

Lemma reconcile_one_repositioned anno_pk by_index by_index' now anno_poly k objs ch db :
  is_Some (ap_id anno_poly) ->
  reconcile_one anno_pk by_index' now (at_position k anno_poly) objs ch db
  = reconcile_one anno_pk by_index now anno_poly objs ch db.
Proof.
  intros [id Hid]. unfold reconcile_one.
  rewrite (match_polygon_by_id _ _ _ (at_position k anno_poly) id) by done.
  rewrite (match_polygon_by_id _ _ _ anno_poly id) by done.
  simpl. done.
Qed.

(** C4: a submitted polygon that carries an identity is matched by the
    look-up of that identity alone, whatever its position and whatever the
    index map holds; moving the identity-carrying polygons of a document to
    other positions changes nothing in what the loop does. *)
Theorem identity_precedence anno_pk by_index now anno_polygons anno_polygons' objs ch db :
  Forall2 (fun x y => y = x ∨ (is_Some (ap_id x) ∧ ∃ k, y = at_position k x))
          anno_polygons anno_polygons' ->
  reconcile anno_pk by_index now anno_polygons' objs ch db
  = reconcile anno_pk by_index now anno_polygons objs ch db
  ∧ ∀ x id, x ∈ anno_polygons -> ap_id x = Some id ->
      ∀ (m : gmap Z Polygon) (by_index' : gmap Z Z) k,
        match_polygon anno_pk m by_index' (at_position k x)
        = match m !! id with
          | Some poly => Loaded id poly
          | None => if ap_deleted x then Continue else Reraise
          end.
Proof.
  intros Hrel. split.
  - revert objs ch db. induction Hrel as [|x y l l' Hxy Hrel IH]; intros objs ch db; [done|].
    simpl. unfold bind.
    assert (Hone : reconcile_one anno_pk by_index now y objs ch db
                   = reconcile_one anno_pk by_index now x objs ch db).
    { destruct Hxy as [->|[Hid [k ->]]]; [done|]. by apply reconcile_one_repositioned. }
    rewrite Hone.
    destruct (reconcile_one anno_pk by_index now x objs ch db) as [[st|e] d]; [|done].
    apply IH.
  - intros x id _ Hid m by_index' k.
    by rewrite (match_polygon_by_id _ _ _ (at_position k x) id).
Qed.

(** ** Identities the import does not load *)

Lemma foreign_not_loaded db anno_pk id :
  foreign db anno_pk id <-> polygons_of db anno_pk !! id = None.
Proof.
  unfold foreign. split.
  - intros Hf. destruct (polygons_of db anno_pk !! id) as [p|] eqn:E; [|done].
    apply polygons_of_lookup in E as (Hrow & Ha & Hd). rewrite Hrow in Hf.
    destruct Hf; congruence.
  - intros Hnone. destruct (polygons db !! id) as [p|] eqn:E; [|done].
    destruct (decide (annotation p = anno_pk)) as [Ha|]; [|by left].
    destruct (deleted p) eqn:Ed; [by right|].
    assert (polygons_of db anno_pk !! id = Some p) by (by apply polygons_of_lookup).
    congruence.
Qed.

Lemma reconcile_ok_identities anno_pk by_index now anno_polygons objs ch db st db' :
  in_sync anno_pk objs db ->
  reconcile anno_pk by_index now anno_polygons objs ch db = (Ok st, db') ->
  ∀ x id, x ∈ anno_polygons -> ap_id x = Some id -> ap_deleted x = false ->
    id ∈ dom objs.
Proof.
  revert objs ch db. induction anno_polygons as [|ap rest IH]; intros objs ch db Hsync; simpl.
  - intros _ x id Hin. by apply elem_of_nil in Hin.
  - unfold bind.
    destruct (reconcile_one anno_pk by_index now ap objs ch db) as [[[objs1 ch1]|e] db1] eqn:E1;
      [|intros [= ]].
    simpl. intros E2 x id Hin Hid Hdel.
    apply elem_of_cons in Hin as [->|Hin].
    + unfold reconcile_one in E1. rewrite (match_polygon_by_id _ _ _ _ id) in E1 by done.
      rewrite Hdel in E1. destruct (objs !! id) as [q|] eqn:Eq; [|done].
      apply elem_of_dom. eauto.
    + apply reconcile_one_ok in E1 as (S1 & Ev1 & _); [|done].
      rewrite <- (ev_dom _ _ _ _ _ _ Ev1). eapply IH; eauto.
Qed.

(** C10: the annotation an import works on belongs to the requester and is
    neither locked nor deleted; every polygon row that a successful import
    leaves different from what it was, or new, belongs to that annotation
    (and, if it existed, was a non-deleted polygon of it); an identity that
    is foreign (no row, a row of another annotation, or a deleted row) is
    not among the loaded objects, its element is skipped without any effect
    when marked deleted, and makes the whole import fail with nothing
    written otherwise. *)
Theorem import_containment request root now db anno_pk a :
  target db request root = Some (anno_pk, a) ->
  (annotations db !! anno_pk = Some a ∧ annotator a = user request
   ∧ a_locked a = false ∧ a_deleted a = false)
  ∧ (∀ db' pk, alone (fun s => process_annotation_xml s request root now) db = (Ok tt, db') ->
       polygons db' !! pk ≠ polygons db !! pk ->
       (∃ p', polygons db' !! pk = Some p' ∧ annotation p' = anno_pk)
       ∧ ∀ p, polygons db !! pk = Some p -> annotation p = anno_pk ∧ deleted p = false)
  ∧ (∀ id anno_polygons x,
       foreign db anno_pk id ->
       parse_objects (findall root "object") ∅ 0 = Some anno_polygons ->
       x ∈ anno_polygons -> ap_id x = Some id ->
       polygons_of db anno_pk !! id = None
       ∧ if ap_deleted x
         then ∀ by_index objs ch d, dom objs = dom (polygons_of db anno_pk) ->
                reconcile_one anno_pk by_index now x objs ch d = (Ok (objs, ch), d)
         else ∃ e, alone (fun s => process_annotation_xml s request root now) db
                   = (Raised e, db)).
Proof.
  intros Htarget. split; [|split].
  - apply target_Some in Htarget as (_ & image_id & img & _ & Hl).
    apply lookup_annotation_Some in Hl. tauto.
  - unfold alone. intros db' pk Hok Hne.
    apply process_annotation_xml_ok in Hok
      as (anno_pk' & a0 & a' & aps & objs' & ch' & db1 & Ht & _ & _ & _ & _ & Hr & Hdb).
    assert (anno_pk' = anno_pk) as -> by congruence.
    apply reconcile_ok in Hr as (_ & Ev & _); [|apply in_sync_snapshot].
    assert (Hpolys : polygons db' = polygons db1) by (subst db'; by destruct ch').
    rewrite Hpolys in *.
    destruct (polygons db !! pk) as [p|] eqn:Ep.
    + destruct (ev_rows _ _ _ _ _ _ Ev _ _ Ep) as (p' & Hp' & (Ka & _) & C).
      destruct C as [->|[Hin _]]; [congruence|].
      apply elem_of_dom in Hin as [q Hq].
      pose proof (lookup_weaken _ _ _ _ Hq (polygons_of_subseteq db anno_pk)) as Hq'.
      assert (q = p) as -> by congruence.
      apply polygons_of_lookup in Hq as (_ & Ha & Hd).
      split; [exists p'; split; [done|congruence]|].
      intros ? [= <-]. done.
    + destruct (polygons db1 !! pk) as [p'|] eqn:Ep'; [|done].
      destruct (ev_new _ _ _ _ _ _ Ev _ _ Ep Ep') as (Ha & _).
      split; [eauto|done].
  - intros id aps x Hf Hparse Hin Hid.
    apply foreign_not_loaded in Hf. split; [done|].
    destruct (ap_deleted x) eqn:Hdel.
    + intros by_index objs ch d Hdom. unfold reconcile_one.
      rewrite (match_polygon_by_id _ _ _ _ id) by done. rewrite Hdel.
      assert (objs !! id = None) as ->; [|done].
      apply not_elem_of_dom. rewrite Hdom. by apply not_elem_of_dom.
    + unfold alone.
      destruct (process_annotation_xml db request root now db) as [[[]|e] d] eqn:E.
      * exfalso. apply process_annotation_xml_ok in E
          as (anno_pk' & a0 & a' & aps' & objs' & ch' & db1 & Ht & _ & Hp' & _ & _ & Hr & _).
        assert (anno_pk' = anno_pk) as -> by congruence.
        assert (aps' = aps) as -> by congruence.
        pose proof (reconcile_ok_identities _ _ _ _ _ _ _ _ _
                      (in_sync_snapshot db anno_pk) Hr x id Hin Hid Hdel) as Hdom.
        by apply not_elem_of_dom in Hf.
      * exists e. apply process_annotation_xml_raised in E. by subst.
Qed.

(** ** Export: the new key, the cleared indices *)

Lemma get_annotation_xml_ok request image_id key db xml db' :
  get_annotation_xml request image_id key db = (Ok xml, db') ->
  ∃ pk a,
    annotations db !! pk = Some a
    ∧ (∀ pk' a', annotations db !! pk' = Some a' ->
         annotator a' = user request -> image a' = image_id -> a_deleted a' = false ->
         pk' = pk)
    ∧ db' = set_polygons (clear_indices pk)
              (set_annotations (insert pk (set_edit_key key a)) db).
Proof.
  unfold get_annotation_xml, bind, get_db, raise.
  destruct (images db !! image_id) as [img|]; [|done].
  destruct (visible img); simpl; [|done].
  destruct (objects_get _ (annotations db)) as [[pk a]|e] eqn:E; [|by destruct e].
  apply objects_get_Ok in E as (Hrow & _ & Huniq).
  unfold modify. simpl.
  destruct (polygons_xml _ _); [|done].
  unfold ret. intros [= _ <-].
  exists pk, a. split; [done|]. split; [|done].
  intros pk' a' Hrow' H1 H2 H3. by destruct (Huniq pk' a' Hrow').
Qed.

Lemma clear_indices_cleared db pk pk' p :
  polygons_of (set_polygons (clear_indices pk) db) pk !! pk' = Some p ->
  anno_index p = None.
Proof.
  intros (Hrow & Ha & Hd)%polygons_of_lookup. simpl in Hrow.
  unfold clear_indices in Hrow. rewrite lookup_fmap in Hrow.
  destruct (polygons db !! pk') as [q|]; [|done]. simpl in Hrow.
  injection Hrow as <-. case_bool_decide as Hc; [done|].
  destruct (anno_index q) eqn:Ei; [|done].
  exfalso. apply Hc. done.
Qed.

(** ** Reading the objects of a document *)

Lemma parse_object_fields obj_tag ids i x ids' :
  parse_object obj_tag ids i = Some (x, ids') ->
  ap_index x = i
  ∧ (find obj_tag "c_poly_id" = None -> ap_id x = None)
  ∧ (is_Some (find obj_tag "c_poly_id") -> is_Some (ap_id x))
  ∧ Some (ap_name x) = text <$> find obj_tag "name"
  ∧ (find_str obj_tag "deleted" ≫= py_int = Some 0 -> ap_deleted x = false).
Proof.
  unfold parse_object.
  destruct (find obj_tag "c_poly_id") as [c|]; simpl.
  - destruct (text c ≫= py_int) as [n|]; simpl; [|done].
    case_bool_decide; simpl; [done|].
    destruct (find obj_tag "name") as [e|]; simpl; [|done].
    case_bool_decide; [done|].
    destruct (find_str obj_tag "deleted" ≫= py_int) as [d|]; simpl; [|done].
    case_bool_decide; simpl; [|done].
    destruct (find_str obj_tag "occluded") as [o|]; simpl; [|done].
    case_bool_decide; simpl; [|done].
    destruct (find obj_tag "polygon" ≫= _) as [pts|]; simpl; [|done].
    intros [= <- <-]. simpl. repeat split; try done; eauto.
    intros [= ->]. done.
  - destruct (find obj_tag "name") as [e|]; simpl; [|done].
    case_bool_decide; [done|].
    destruct (find_str obj_tag "deleted" ≫= py_int) as [d|]; simpl; [|done].
    case_bool_decide; simpl; [|done].
    destruct (find_str obj_tag "occluded") as [o|]; simpl; [|done].
    case_bool_decide; simpl; [|done].
    destruct (find obj_tag "polygon" ≫= _) as [pts|]; simpl; [|done].
    intros [= <- <-]. simpl. repeat split; try done.
    intros [= ->]. done.
Qed.



(** ** Polygons created by the loop, and found again by index *)

Lemma reconcile_app anno_pk by_index now l1 l2 objs ch db :
  reconcile anno_pk by_index now (l1 ++ l2)%list objs ch db
  = match reconcile anno_pk by_index now l1 objs ch db with
    | (Ok st, db1) => reconcile anno_pk by_index now l2 st.1 st.2 db1
    | (Raised e, db1) => (Raised e, db1)
    end.
Proof.
  revert objs ch db. induction l1 as [|x l1 IH]; intros objs ch db; simpl; [done|].
  unfold bind.
  destruct (reconcile_one anno_pk by_index now x objs ch db) as [[st|e] d]; [|done].
  apply IH.
Qed.






(** ** The annotation of an export is the annotation of the imports that follow *)


Lemma same_annotation_as_export request image_id (t0 t : gmap Z Annotation) pk0 db root pk a :
  (∀ pk' a', t0 !! pk' = Some a' ->
     annotator a' = user request -> image a' = image_id -> a_deleted a' = false ->
     pk' = pk0) ->
  (∀ k x, t !! k = Some x ->
     ∃ x0, t0 !! k = Some x0 ∧ annotator x0 = annotator x ∧ image x0 = image x
           ∧ a_deleted x0 = a_deleted x) ->
  annotations db = t ->
  lookup_annotation db request root image_id = Some (pk, a) ->
  pk = pk0.
Proof.
  intros Huniq Hsame <- (Hrow & Hu & Hi & _ & Hd)%lookup_annotation_Some.
  destruct (Hsame _ _ Hrow) as (x0 & Hx0 & E1 & E2 & E3).
  apply (Huniq pk x0); congruence.
Qed.


(** C2: when the import resolves its annotation and the edit key of the
    document is not the stored one, either when the document is read or,
    for a document that passed the reading, when the row is read again under
    the lock, the import raises "invalid edit key" and the database is left
    as it was.  In particular, once an export has stored a new key, the
    annotation the import resolves holds that key, and a document carrying
    any other key is rejected so. *)
Theorem stale_edit_key_rejected snapshot request root now db anno_pk a :
  target snapshot request root = Some (anno_pk, a) ->
  (submitted_key root ≠ Some (edit_key a)
   ∨ (parse_objects (findall root "object") ∅ 0 ≠ None
      ∧ ∃ a', annotations db !! anno_pk = Some a'
              ∧ submitted_key root ≠ Some (edit_key a')) ->
   process_annotation_xml snapshot request root now db
   = (Raised (SuspiciousOperation "invalid edit key"), db))
  ∧ (∀ image_id key db0 xml img,
       get_annotation_xml request image_id key db0 = (Ok xml, snapshot) ->
       lookup_image snapshot root = Some (image_id, img) ->
       edit_key a = key
       ∧ (submitted_key root ≠ Some key ->
          process_annotation_xml snapshot request root now db
          = (Raised (SuspiciousOperation "invalid edit key"), db))).
Proof.
  intros Htarget. split; [by apply edit_key_mismatch_raises|].
  intros image_id key db0 xml img Hexport Himg.
  assert (Hkey : edit_key a = key).
  { apply get_annotation_xml_ok in Hexport as (pk0 & a0 & Ha0 & Huniq & Hdb1).
    destruct (target_Some _ _ _ _ _ Htarget) as (_ & i & img' & Hi & Hl).
    assert (i = image_id) as -> by congruence.
    assert (Hsame : ∀ k x, annotations snapshot !! k = Some x ->
              ∃ x0, annotations db0 !! k = Some x0 ∧ annotator x0 = annotator x
                    ∧ image x0 = image x ∧ a_deleted x0 = a_deleted x).
    { subst snapshot. simpl. intros k x. destruct (decide (pk0 = k)) as [->|Hne].
      - rewrite lookup_insert_eq. intros [= <-]. eauto.
      - rewrite lookup_insert_ne by done. eauto. }
    assert (anno_pk = pk0) as ->
      by (eapply (same_annotation_as_export _ _ _ _ _ snapshot); eauto).
    apply lookup_annotation_Some in Hl as (Hrow & _).
    subst snapshot. simpl in Hrow. rewrite lookup_insert_eq in Hrow.
    by injection Hrow as <-. }
  split; [done|]. intros Hne.
  apply (edit_key_mismatch_raises _ _ _ _ _ anno_pk a); [done|].
  left. by rewrite Hkey.
Qed.

(** ** What the export and the label check do besides *)

Lemma objects_get_DoesNotExist {A} (P : Z * A -> Prop) `{!∀ r, Decision (P r)}
    (table : gmap Z A) :
  (∀ pk a, table !! pk = Some a -> ¬ P (pk, a)) ->
  objects_get P table = Raised DoesNotExist.
Proof.
  intros Hnone. unfold objects_get.
  destruct (map_to_list (filter P table)) as [|[pk a] l] eqn:E; [done|].
  assert (Hin : (pk, a) ∈ map_to_list (filter P table)) by (rewrite E; left).
  rewrite elem_of_map_to_list, map_lookup_filter_Some in Hin.
  destruct Hin as [Hrow HP]. by destruct (Hnone pk a).
Qed.

(** The export of an image that has no row. *)
Lemma get_annotation_xml_no_image request image_id key db :
  images db !! image_id = None ->
  get_annotation_xml request image_id key db = (Raised (UnboundLocalError "image"), db).
Proof. intros Hnone. unfold get_annotation_xml, bind, get_db, raise. by rewrite Hnone. Qed.

(** The export of an image that has a row: invisible, or without a
    non-deleted annotation of the requester, it is [Http404], and nothing
    is written. *)
Lemma get_annotation_xml_not_found request image_id key db img :
  images db !! image_id = Some img ->
  visible img = false
  ∨ (∀ pk a, annotations db !! pk = Some a ->
       ¬ (annotator a = user request ∧ image a = image_id ∧ a_deleted a = false)) ->
  get_annotation_xml request image_id key db
  = (Raised (Http404 "Annotation does not exist."), db).
Proof.
  intros Himg Hcase. unfold get_annotation_xml, bind, get_db, raise. rewrite Himg.
  destruct (visible img) eqn:Ev; simpl; [|done].
  destruct Hcase as [|Hnone]; [done|].
  rewrite objects_get_DoesNotExist; [done|].
  intros pk a Hrow. simpl. exact (Hnone pk a Hrow).
Qed.

(** A label element that is missing, or whose text is the empty string,
    makes the object, and with it the document, invalid. *)
Lemma parse_object_label obj_tag ids i :
  find obj_tag "name" = None ∨ text <$> find obj_tag "name" = Some (Some "") ->
  parse_object obj_tag ids i = None.
Proof.
  intros Hname. unfold parse_object.
  destruct (match find obj_tag "c_poly_id" with
            | Some c => _
            | None => _
            end) as [[id ids']|]; simpl; [|done].
  destruct (find obj_tag "name") as [e|]; simpl.
  - destruct Hname as [|Hname]; [done|]. simpl in Hname. injection Hname as ->.
    by rewrite bool_decide_eq_true_2.
  - done.
Qed.

End Properties.

(** * Further properties of the views *)

Section Further.
Context {FT : FloatType} {B : Builtins}.

(** ** Reading the objects: positions, identities, coordinates *)

Lemma parse_points_length pts l :
  parse_points pts = Some l -> length l = (2 * length pts)%nat.
Proof.
  revert l. induction pts as [|pt rest IH]; intros l; simpl.
  - by intros [= <-].
  - destruct (find_str pt "x" ≫= round2) as [x|]; simpl; [|done].
    destruct (find_str pt "y" ≫= round2) as [y|]; simpl; [|done].
    destruct (parse_points rest) as [more|]; simpl; [|done].
    intros [= <-]. simpl. rewrite (IH more) by done. lia.
Qed.

Lemma parse_object_inv obj_tag ids k x ids' :
  parse_object obj_tag ids k = Some (x, ids') ->
  ap_index x = k
  ∧ ap_id x = claimed_id obj_tag
  ∧ (match ap_id x with
     | Some i => (i ∉ ids) ∧ (ids' = {[i]} ∪ ids)
     | None => ids' = ids
     end)
  ∧ ∃ polygon, find obj_tag "polygon" = Some polygon
               ∧ parse_points (findall polygon "pt") = Some (ap_points x).
Proof.
  unfold parse_object, claimed_id.
  destruct (find obj_tag "c_poly_id") as [c|]; simpl.
  - destruct (text c ≫= py_int) as [n|]; simpl; [|done].
    case_bool_decide as Hin; simpl; [done|].
    destruct (find obj_tag "name") as [e|]; simpl; [|done].
    case_bool_decide; [done|].
    destruct (find_str obj_tag "deleted" ≫= py_int) as [d|]; simpl; [|done].
    case_bool_decide; simpl; [|done].
    destruct (find_str obj_tag "occluded") as [o|]; simpl; [|done].
    case_bool_decide; simpl; [|done].
    destruct (find obj_tag "polygon") as [polygon|]; simpl; [|done].
    destruct (parse_points (findall polygon "pt")) as [pts|] eqn:Ep; simpl; [|done].
    intros [= <- <-]. simpl. eauto 10.
  - destruct (find obj_tag "name") as [e|]; simpl; [|done].
    case_bool_decide; [done|].
    destruct (find_str obj_tag "deleted" ≫= py_int) as [d|]; simpl; [|done].
    case_bool_decide; simpl; [|done].
    destruct (find_str obj_tag "occluded") as [o|]; simpl; [|done].
    case_bool_decide; simpl; [|done].
    destruct (find obj_tag "polygon") as [polygon|]; simpl; [|done].
    destruct (parse_points (findall polygon "pt")) as [pts|] eqn:Ep; simpl; [|done].
    intros [= <- <-]. simpl. eauto 10.
Qed.

(** The identities read so far are exactly the ones of the objects read. *)
Lemma parse_objects_inv objs ids k l :
  parse_objects objs ids k = Some l ->
  Forall2 (fun o x => ap_id x = claimed_id o
                      ∧ (ap_id x = None <-> find o "c_poly_id" = None)
                      ∧ Nat.Even (length (ap_points x))) objs l
  ∧ (∀ n x, l !! n = Some x -> ap_index x = k + Z.of_nat n)
  ∧ NoDup (omap ap_id l)
  ∧ ∀ i, i ∈ omap ap_id l -> i ∉ ids.
Proof.
  revert ids k l. induction objs as [|o rest IH]; intros ids k l; simpl.
  - intros [= <-]. split; [constructor|]. split; [by intros n x|].
    split; [constructor|]. intros i Hi. by apply elem_of_nil in Hi.
  - destruct (parse_object o ids k) as [[y ids1]|] eqn:E1; simpl; [|done].
    destruct (parse_objects rest ids1 (k + 1)) as [l'|] eqn:E; simpl; [|done].
    intros [= <-].
    pose proof (parse_object_fields _ _ _ _ _ E1) as (_ & Hnone & Hsome & _).
    apply parse_object_inv in E1 as (Hk & Hid & Hids & polygon & _ & Hpts).
    apply IH in E as (Hall & Hpos & Hnd & Hfresh).
    split; [|split; [|split]].
    + constructor; [|done]. split; [done|]. split.
      { split; [|done]. intros Hy.
        destruct (find o "c_poly_id") as [c|] eqn:Ec; [|done].
        destruct Hsome as [? Hs]; [eauto|congruence]. }
      apply parse_points_length in Hpts. rewrite Hpts. by exists (length (findall polygon "pt")).
    + intros [|n] x; simpl.
      * intros [= <-]. lia.
      * intros Hx. rewrite (Hpos n x Hx). lia.
    + simpl. destruct (ap_id y) as [i|]; [|done].
      destruct Hids as [Hi ->]. constructor; [|done].
      intros Hi'. apply (Hfresh i Hi'), elem_of_union. left. by apply elem_of_singleton.
    + intros i. simpl. destruct (ap_id y) as [j|].
      * destruct Hids as [Hj ->]. intros [->|Hi]%elem_of_cons; [done|].
        intros Hin. apply (Hfresh i Hi), elem_of_union. by right.
      * subst ids1. apply Hfresh.
Qed.

(** X1: the objects of a document that is read are numbered from 0 in the
    order of appearance, one submitted polygon per object. *)
Theorem parse_objects_positions objs l :
  parse_objects objs ∅ 0 = Some l ->
  length l = length objs
  ∧ ∀ n x, l !! n = Some x -> ap_index x = Z.of_nat n.
Proof.
  intros (Hall & Hpos & _)%parse_objects_inv. split.
  - symmetry. by eapply Forall2_length.
  - intros n x Hx. rewrite (Hpos n x Hx). lia.
Qed.

(** X2: a document in which two objects claim the same identity is not
    read: the import raises "invalid polygon" as soon as its annotation and
    its edit key are accepted, and writes nothing. *)
Theorem duplicate_identity_rejected snapshot request root now db anno_pk a n1 n2 o1 o2 i :
  target snapshot request root = Some (anno_pk, a) ->
  submitted_key root = Some (edit_key a) ->
  findall root "object" !! n1 = Some o1 -> findall root "object" !! n2 = Some o2 ->
  n1 ≠ n2 -> claimed_id o1 = Some i -> claimed_id o2 = Some i ->
  process_annotation_xml snapshot request root now db
  = (Raised (SuspiciousOperation "invalid polygon"), db).
Proof.
  intros (Htag & image_id & img & Himg & Hanno)%target_Some Hkey H1 H2 Hne Hc1 Hc2.
  unfold process_annotation_xml. rewrite Htag, Himg, Hanno. simpl.
  rewrite read_edit_key_spec, Hkey, bool_decide_eq_true_2 by done.
  destruct (parse_objects (findall root "object") ∅ 0) as [l|] eqn:E; [|done].
  exfalso. apply parse_objects_inv in E as (Hall & _ & Hnd & _).
  destruct (Forall2_lookup_l _ _ _ _ _ Hall H1) as (x1 & Hx1 & Hid1 & _).
  destruct (Forall2_lookup_l _ _ _ _ _ Hall H2) as (x2 & Hx2 & Hid2 & _).
  rewrite Hc1 in Hid1. rewrite Hc2 in Hid2.
  assert (Hinj : ∀ (l : list AnnoPolygon) m1 m2 y1 y2 j,
            NoDup (omap ap_id l) -> l !! m1 = Some y1 -> l !! m2 = Some y2 ->
            ap_id y1 = Some j -> ap_id y2 = Some j -> m1 = m2).
  { clear. induction l as [|y l IH]; intros m1 m2 y1 y2 j Hnd Hy1 Hy2 Hj1 Hj2; [done|].
    simpl in Hnd.
    assert (Hmem : ∀ m z, l !! m = Some z -> ap_id z = Some j -> j ∈ omap ap_id l).
    { intros m z Hz Hjz. apply list_elem_of_omap. exists z. split; [|done].
      by eapply list_elem_of_lookup_2. }
    destruct m1 as [|m1], m2 as [|m2]; simpl in *.
    - done.
    - injection Hy1 as ->. rewrite Hj1 in Hnd. apply NoDup_cons in Hnd as [Hnot _].
      destruct Hnot. eauto.
    - injection Hy2 as ->. rewrite Hj2 in Hnd. apply NoDup_cons in Hnd as [Hnot _].
      destruct Hnot. eauto.
    - f_equal. apply (IH m1 m2 y1 y2 j); try done.
      destruct (ap_id y); [by apply NoDup_cons in Hnd as [_ ?]|done]. }
  apply Hne. by apply (Hinj l n1 n2 x1 x2 i).
Qed.

(** ** Export: what it writes, when it fails, when it succeeds *)

Lemma objects_get_unique {A} (P : Z * A -> Prop) `{!∀ r, Decision (P r)}
    (table : gmap Z A) pk a :
  table !! pk = Some a -> P (pk, a) ->
  (∀ pk' a', table !! pk' = Some a' -> P (pk', a') -> pk' = pk) ->
  objects_get P table = Ok (pk, a).
Proof.
  intros Hrow HP Huniq. unfold objects_get.
  assert (Hf : filter P table = {[pk := a]}).
  { apply map_eq. intros k. apply option_eq. intros x.
    rewrite map_lookup_filter_Some, lookup_singleton_Some. split.
    - intros [Hk HPk]. pose proof (Huniq k x Hk HPk) as ->. split; congruence.
    - intros [<- <-]. done. }
  by rewrite Hf, map_to_list_singleton.
Qed.

Lemma objects_get_raised {A} (P : Z * A -> Prop) `{!∀ r, Decision (P r)}
    (table : gmap Z A) e :
  objects_get P table = Raised e -> e = DoesNotExist ∨ e = MultipleObjectsReturned.
Proof.
  unfold objects_get. destruct (map_to_list (filter P table)) as [|r [|r' l]];
    intros [= <-]; auto.
Qed.

Lemma clear_index_None p : anno_index p = None -> clear_index p = p.
Proof. destruct p. simpl. by intros ->. Qed.

Lemma clear_indices_lookup anno_pk (table : gmap Z Polygon) k :
  clear_indices anno_pk table !! k
  = (fun p => if bool_decide (annotation p = anno_pk ∧ deleted p = false)
              then clear_index p else p) <$> table !! k.
Proof.
  unfold clear_indices. rewrite lookup_fmap.
  destruct (table !! k) as [p|]; simpl; [|done]. f_equal.
  destruct (decide (annotation p = anno_pk ∧ deleted p = false)) as [Hc|Hc].
  - rewrite (bool_decide_eq_true_2 _ Hc).
    destruct (anno_index p) eqn:Ei.
    + rewrite bool_decide_eq_true_2; [done|]. by destruct Hc.
    + rewrite bool_decide_eq_false_2; [by rewrite clear_index_None|].
      intros (_ & _ & ?). done.
  - rewrite (bool_decide_eq_false_2 _ Hc).
    rewrite bool_decide_eq_false_2; [done|]. intros (? & ? & _). by apply Hc.
Qed.

Lemma polygons_of_cleared db anno_pk :
  polygons_of (set_polygons (clear_indices anno_pk) db) anno_pk
  = clear_index <$> polygons_of db anno_pk.
Proof.
  apply map_eq. intros k. apply option_eq. intros q.
  rewrite polygons_of_lookup, lookup_fmap_Some. simpl.
  rewrite clear_indices_lookup. split.
  - intros (Hrow & Ha & Hd).
    destruct (polygons db !! k) as [p|] eqn:Ep; [|done]. simpl in Hrow.
    injection Hrow as <-.
    case_bool_decide as Hc.
    + exists p. split; [done|]. apply polygons_of_lookup. tauto.
    + exfalso. apply Hc. done.
  - intros (p & <- & (Hrow & Ha & Hd)%polygons_of_lookup).
    rewrite Hrow. simpl. rewrite bool_decide_eq_true_2 by done. done.
Qed.

Lemma points_xml_even (pts : list pyfloat) :
  (∃ l, points_xml pts = Ok l) <-> Nat.Even (length pts).
Proof.
  assert (Hind : ∀ n (pts : list pyfloat), (length pts < n)%nat ->
            ((∃ l, points_xml pts = Ok l) <-> Nat.Even (length pts))).
  { induction n as [|n IH]; intros q Hlen; [lia|].
    destruct q as [|x [|y rest]].
    - simpl. split; [by exists 0%nat|eauto].
    - simpl. split; [by intros [? ?]|]. intros [m Hm]. simpl in Hm. lia.
    - change (points_xml (x :: y :: rest))
        with (match points_xml rest with
              | Ok more => Ok (("<pt><x>" +:+ format_2f x +:+ "</x><y>" +:+ format_2f y
                                +:+ "</y></pt>") :: more)
              | Raised e => Raised e
              end).
      simpl in Hlen. specialize (IH rest ltac:(lia)).
      split.
      + intros [l Hl]. destruct (points_xml rest) as [more|e]; [|done].
        destruct (proj1 IH (ex_intro _ more eq_refl)) as [m Hm].
        exists (S m). simpl. lia.
      + intros [m Hm]. simpl in Hm.
        destruct (proj2 IH) as [more ->]; [exists (m - 1)%nat; lia|]. eauto. }
  apply (Hind (S (length pts))). lia.
Qed.

Lemma points_xml_raised (pts : list pyfloat) e : points_xml pts = Raised e -> e = IndexError.
Proof.
  assert (Hind : ∀ n (pts : list pyfloat), (length pts < n)%nat ->
            points_xml pts = Raised e -> e = IndexError).
  { induction n as [|n IH]; intros q Hlen; [lia|].
    destruct q as [|x [|y rest]]; [done|by intros [= <-]|].
    change (points_xml (x :: y :: rest))
      with (match points_xml rest with
            | Ok more => Ok (("<pt><x>" +:+ format_2f x +:+ "</x><y>" +:+ format_2f y
                              +:+ "</y></pt>") :: more)
            | Raised e => Raised e
            end).
    simpl in Hlen. destruct (points_xml rest) as [more|e'] eqn:E; [done|].
    intros [= <-]. apply (IH rest); [lia|done]. }
  apply (Hind (S (length pts))). lia.
Qed.

Lemma polygon_xml_ok annotation pk (polygon : Polygon) :
  (∃ x, polygon_xml annotation pk polygon = Ok x)
  <-> is_Some (label_as_str polygon) ∧ Nat.Even (length (points polygon)).
Proof.
  unfold polygon_xml. rewrite <- points_xml_even.
  destruct (label_as_str polygon) as [label|].
  - destruct (points_xml (points polygon)) as [pts|e].
    + split; eauto.
    + split; [by intros [? ?]|]. by intros [_ [? ?]].
  - split; [by intros [? ?]|]. by intros [[? ?] _].
Qed.

Lemma polygons_xml_ok annotation (rows : list (Z * Polygon)) :
  (∃ x, polygons_xml annotation rows = Ok x)
  <-> Forall (fun r => is_Some (label_as_str r.2) ∧ Nat.Even (length (points r.2))) rows.
Proof.
  induction rows as [|[pk p] rows IH]; simpl.
  - split; [constructor|eauto].
  - rewrite Forall_cons, <- IH, <- (polygon_xml_ok annotation pk p). simpl.
    destruct (polygon_xml annotation pk p) as [x|e].
    + destruct (polygons_xml annotation rows) as [more|e'].
      * split; eauto.
      * split; [by intros [? ?]|]. by intros [_ [? ?]].
    + split; [by intros [? ?]|]. by intros [[? ?] _].
Qed.

Lemma polygons_xml_raised annotation (rows : list (Z * Polygon)) e :
  polygons_xml annotation rows = Raised e -> e = AttributeError ∨ e = IndexError.
Proof.
  induction rows as [|[pk p] rows IH]; simpl; [done|].
  destruct (polygon_xml annotation pk p) as [x|e'] eqn:E.
  - destruct (polygons_xml annotation rows) as [more|e'']; [done|].
    intros [= <-]. by apply IH.
  - intros [= <-]. unfold polygon_xml in E.
    destruct (label_as_str p); [|injection E as <-; by left].
    destruct (points_xml (points p)) eqn:Ep; [done|].
    injection E as <-. right. by eapply points_xml_raised.
Qed.

(** [polygon_xml] does not read the file index of the polygon, nor the edit
    key of the annotation. *)
Lemma polygon_xml_indifferent a key pk (p : Polygon) :
  polygon_xml (set_edit_key key a) pk (clear_index p) = polygon_xml a pk p.
Proof. done. Qed.

Lemma polygons_xml_indifferent a key (rows : list (Z * Polygon)) :
  polygons_xml (set_edit_key key a) (prod_map id clear_index <$> rows)
  = polygons_xml a rows.
Proof.
  induction rows as [|[pk p] rows IH]; simpl; [done|].
  change (list_fmap _ _ (prod_map id clear_index) rows)
    with (prod_map id clear_index <$> rows).
  by rewrite polygon_xml_indifferent, IH.
Qed.

(** What an export that returns a document did. *)
Lemma get_annotation_xml_inv request image_id key db xml db' :
  get_annotation_xml request image_id key db = (Ok xml, db') ->
  ∃ img pk a objects,
    images db !! image_id = Some img ∧ visible img = true
    ∧ objects_get (fun r => annotator r.2 = user request ∧ image r.2 = image_id
                            ∧ a_deleted r.2 = false) (annotations db) = Ok (pk, a)
    ∧ db' = set_polygons (clear_indices pk)
              (set_annotations (insert pk (set_edit_key key a)) db)
    ∧ polygons_xml a (map_to_list (polygons_of db pk)) = Ok objects
    ∧ xml = (["<annotation>";
              "<c_anno_id>" +:+ pretty pk +:+ "</c_anno_id>";
              "<edit_key>" +:+ bytes_hex key +:+ "</edit_key>";
              "<filename>img" +:+ pretty image_id +:+ ".jpg</filename><folder>f</folder>"]
             ++ objects ++ ["</annotation>"])%list.
Proof.
  unfold get_annotation_xml, bind, get_db, raise.
  destruct (images db !! image_id) as [img|]; [|done].
  destruct (visible img) eqn:Ev; simpl; [|done].
  destruct (objects_get _ (annotations db)) as [[pk a]|e] eqn:E; [|by destruct e].
  unfold modify. simpl.
  pose proof (polygons_of_cleared (set_annotations (insert pk (set_edit_key key a)) db) pk)
    as Hc. simpl in Hc. unfold set_polygons in Hc. simpl in Hc.
  unfold set_polygons at 1. simpl. rewrite Hc.
  change (polygons_of (set_annotations (insert pk (set_edit_key key a)) db) pk)
    with (polygons_of db pk).
  rewrite map_to_list_fmap, polygons_xml_indifferent.
  destruct (polygons_xml a (map_to_list (polygons_of db pk))) as [objects|e] eqn:Ex; [|done].
  unfold ret. intros [= <- <-].
  exists img, pk, a, objects. repeat split; done.
Qed.

(** X3: an export that returns a document stored the new key in the
    annotation of the requester for the image and erased the file index of
    every non-deleted polygon of that annotation; it changed nothing else,
    and the index map the next import builds is empty. *)
Theorem export_frame request image_id key db xml db' :
  get_annotation_xml request image_id key db = (Ok xml, db') ->
  ∃ pk a,
    annotations db !! pk = Some a
    ∧ annotator a = user request ∧ image a = image_id ∧ a_deleted a = false
    ∧ images db' = images db
    ∧ annotations db' = <[pk := set_edit_key key a]> (annotations db)
    ∧ (∀ k, polygons db' !! k
            = (fun p => if bool_decide (annotation p = pk ∧ deleted p = false)
                        then clear_index p else p) <$> polygons db !! k)
    ∧ index_polygons (polygons_of db' pk) = ∅.
Proof.
  intros (img & pk & a & objects & _ & _ & Hget & -> & _)%get_annotation_xml_inv.
  apply objects_get_Ok in Hget as (Hrow & (Hu & Hi & Hd) & _). simpl in *.
  exists pk, a. repeat split; try done.
  - intros k. simpl. apply clear_indices_lookup.
  - apply map_eq. intros i. rewrite lookup_empty. apply index_polygons_none.
    intros k p Hp. by rewrite (clear_indices_cleared _ _ _ _ Hp).
Qed.

(** X4: an export that raises has either written nothing
    ([UnboundLocalError], [Http404], [MultipleObjectsReturned]), or it has
    met, while writing the document, a polygon without label
    ([AttributeError]) or with an odd number of coordinates ([IndexError]):
    then the new key is already stored and the indices are already
    erased. *)
Theorem export_failure request image_id key db e db' :
  get_annotation_xml request image_id key db = (Raised e, db') ->
  (db' = db
   ∧ (e = UnboundLocalError "image" ∨ e = Http404 "Annotation does not exist."
      ∨ e = MultipleObjectsReturned))
  ∨ ((e = AttributeError ∨ e = IndexError)
     ∧ ∃ pk a, annotations db !! pk = Some a
         ∧ db' = set_polygons (clear_indices pk)
                   (set_annotations (insert pk (set_edit_key key a)) db)).
Proof.
  unfold get_annotation_xml, bind, get_db, raise.
  destruct (images db !! image_id) as [img|]; [|intros [= <- <-]; left; auto].
  destruct (visible img) eqn:Ev; simpl; [|intros [= <- <-]; left; auto].
  destruct (objects_get _ (annotations db)) as [[pk a]|e0] eqn:E.
  - apply objects_get_Ok in E as (Hrow & _ & _).
    unfold modify. simpl.
    destruct (polygons_xml _ _) as [objects|e1] eqn:Ex; [done|].
    intros [= <- <-]. right. split; [by eapply polygons_xml_raised|].
    exists pk, a. done.
  - apply objects_get_raised in E as [-> | ->]; intros [= <- <-]; left; auto.
Qed.

(** X5: an export returns a document exactly when the image has a row and
    is visible, the requester has exactly one non-deleted annotation for
    it, and each non-deleted polygon of that annotation has a label and an
    even number of coordinates. *)
Theorem export_succeeds_iff request image_id key db :
  (∃ xml db', get_annotation_xml request image_id key db = (Ok xml, db'))
  <-> ∃ img pk a,
        images db !! image_id = Some img ∧ visible img = true
        ∧ annotations db !! pk = Some a
        ∧ annotator a = user request ∧ image a = image_id ∧ a_deleted a = false
        ∧ (∀ pk' a', annotations db !! pk' = Some a' -> annotator a' = user request ->
             image a' = image_id -> a_deleted a' = false -> pk' = pk)
        ∧ ∀ k p, polygons_of db pk !! k = Some p ->
            is_Some (label_as_str p) ∧ Nat.Even (length (points p)).
Proof.
  split.
  - intros (xml & db' & (img & pk & a & objects & Hi & Hv & Hget & _ & Hx & _)%get_annotation_xml_inv).
    apply objects_get_Ok in Hget as (Hrow & (Hu & Him & Hd) & Huniq). simpl in *.
    exists img, pk, a. repeat split; try done.
    + intros pk' a' Hrow' H1 H2 H3. by destruct (Huniq pk' a' Hrow').
    + assert (Hall : Forall (fun r : Z * Polygon =>
                 is_Some (label_as_str r.2) ∧ Nat.Even (length (points r.2)))
               (map_to_list (polygons_of db pk))) by (apply (polygons_xml_ok a); eauto).
      rewrite Forall_forall in Hall.
      apply (Hall (k, p)). by apply elem_of_map_to_list.
    + assert (Hall : Forall (fun r : Z * Polygon =>
                 is_Some (label_as_str r.2) ∧ Nat.Even (length (points r.2)))
               (map_to_list (polygons_of db pk))) by (apply (polygons_xml_ok a); eauto).
      rewrite Forall_forall in Hall.
      apply (Hall (k, p)). by apply elem_of_map_to_list.
  - intros (img & pk & a & Hi & Hv & Hrow & Hu & Him & Hd & Huniq & Hpolys).
    unfold get_annotation_xml, bind, get_db, raise. rewrite Hi, Hv. simpl.
    rewrite (objects_get_unique _ _ pk a); [|done|done|].
    2:{ intros pk' a' Hrow' (H1 & H2 & H3). simpl in *. eauto. }
    unfold modify. simpl.
    pose proof (polygons_of_cleared (set_annotations (insert pk (set_edit_key key a)) db) pk)
      as Hc. unfold set_polygons in Hc. simpl in Hc.
    unfold set_polygons at 1. simpl. rewrite Hc.
    change (polygons_of (set_annotations (insert pk (set_edit_key key a)) db) pk)
      with (polygons_of db pk).
    rewrite map_to_list_fmap, polygons_xml_indifferent.
    destruct (proj2 (polygons_xml_ok a (map_to_list (polygons_of db pk)))) as [objects ->].
    { apply Forall_forall. intros [k p] Hin. apply elem_of_map_to_list in Hin.
      by apply (Hpolys k p). }
    unfold ret. eauto.
Qed.

(** X6: an export can be repeated: right after an export that returned a
    document, a second export for the same requester and image returns the
    same document but for the edit key, and writes nothing but that key. *)
Theorem export_twice request image_id key1 key2 db xml1 db1 :
  get_annotation_xml request image_id key1 db = (Ok xml1, db1) ->
  ∃ xml2 db2 pk objects,
    get_annotation_xml request image_id key2 db1 = (Ok xml2, db2)
    ∧ images db2 = images db1 ∧ polygons db2 = polygons db1
    ∧ (∀ k, k ≠ pk -> annotations db2 !! k = annotations db1 !! k)
    ∧ edit_key <$> annotations db2 !! pk = Some key2
    ∧ xml1 = (["<annotation>";
               "<c_anno_id>" +:+ pretty pk +:+ "</c_anno_id>";
               "<edit_key>" +:+ bytes_hex key1 +:+ "</edit_key>";
               "<filename>img" +:+ pretty image_id +:+ ".jpg</filename><folder>f</folder>"]
              ++ objects ++ ["</annotation>"])%list
    ∧ xml2 = (["<annotation>";
               "<c_anno_id>" +:+ pretty pk +:+ "</c_anno_id>";
               "<edit_key>" +:+ bytes_hex key2 +:+ "</edit_key>";
               "<filename>img" +:+ pretty image_id +:+ ".jpg</filename><folder>f</folder>"]
              ++ objects ++ ["</annotation>"])%list.
Proof.
  intros (img & pk & a & objects & Hi & Hv & Hget & -> & Hx & ->)%get_annotation_xml_inv.
  apply objects_get_Ok in Hget as (Hrow & (Hu & Him & Hd) & Huniq). simpl in *.
  set (db1 := set_polygons (clear_indices pk)
                (set_annotations (insert pk (set_edit_key key1 a)) db)).
  assert (Hget1 : objects_get (fun r => annotator r.2 = user request ∧ image r.2 = image_id
                                        ∧ a_deleted r.2 = false) (annotations db1)
                  = Ok (pk, set_edit_key key1 a)).
  { apply objects_get_unique; simpl.
    - by rewrite lookup_insert_eq.
    - done.
    - intros pk' a' Hrow' HP. destruct (decide (pk = pk')) as [|Hne]; [done|].
      rewrite lookup_insert_ne in Hrow' by done. by destruct (Huniq pk' a' Hrow'). }
  assert (Hpolys1 : polygons_of db1 pk = clear_index <$> polygons_of db pk).
  { apply (polygons_of_cleared (set_annotations (insert pk (set_edit_key key1 a)) db) pk). }
  assert (Hidem : clear_indices pk (polygons db1) = polygons db1).
  { apply map_eq. intros k. rewrite clear_indices_lookup.
    destruct (polygons db1 !! k) as [q|] eqn:Eq; [|done]. simpl. f_equal.
    case_bool_decide as Hc; [|done]. apply clear_index_None.
    apply (clear_indices_cleared (set_annotations (insert pk (set_edit_key key1 a)) db) pk k).
    apply polygons_of_lookup. tauto. }
  exists (["<annotation>";
           "<c_anno_id>" +:+ pretty pk +:+ "</c_anno_id>";
           "<edit_key>" +:+ bytes_hex key2 +:+ "</edit_key>";
           "<filename>img" +:+ pretty image_id +:+ ".jpg</filename><folder>f</folder>"]
          ++ objects ++ ["</annotation>"])%list,
         (set_polygons (clear_indices pk)
            (set_annotations (insert pk (set_edit_key key2 (set_edit_key key1 a))) db1)),
         pk, objects.
  split; [|repeat split; simpl; try done].
  - unfold get_annotation_xml, bind, get_db, raise.
    change (images db1) with (images db). rewrite Hi, Hv. cbn [negb].
    rewrite Hget1. unfold modify.
    rewrite (polygons_of_cleared
               (set_annotations (insert pk (set_edit_key key2 (set_edit_key key1 a))) db1) pk).
    change (polygons_of (set_annotations
                           (insert pk (set_edit_key key2 (set_edit_key key1 a))) db1) pk)
      with (polygons_of db1 pk).
    rewrite Hpolys1, !map_to_list_fmap.
    rewrite polygons_xml_indifferent, polygons_xml_indifferent, Hx.
    unfold ret. done.
  - intros k Hne. by rewrite lookup_insert_ne.
  - by rewrite lookup_insert_eq.
Qed.

(** ** The outcomes of an import *)

Lemma process_annotation_xml_raises snapshot request root now db e db' :
  process_annotation_xml snapshot request root now db = (Raised e, db') ->
  e = KeyError ∨ e = DoesNotExist
  ∨ ∃ msg, e = SuspiciousOperation msg
           ∧ msg ∈ ["not an annotation"; "invalid image"; "invalid anno id";
                    "invalid edit key"; "invalid polygon"].
Proof.
  unfold process_annotation_xml, raise.
  destruct (String.eqb (tag root) "annotation"); simpl.
  2:{ intros [= <- _]. right. right. eexists. split; [done|]. repeat constructor. }
  destruct (lookup_image snapshot root) as [[image_id img]|].
  2:{ intros [= <- _]. right. right. eexists. split; [done|]. repeat constructor. }
  destruct (lookup_annotation snapshot request root image_id) as [[anno_pk a]|].
  2:{ intros [= <- _]. right. right. eexists. split; [done|]. repeat constructor. }
  destruct (read_edit_key root a) as [key|].
  2:{ intros [= <- _]. right. right. eexists. split; [done|]. repeat constructor. }
  destruct (parse_objects (findall root "object") ∅ 0) as [aps|].
  2:{ intros [= <- _]. right. right. eexists. split; [done|]. repeat constructor. }
  unfold atomic, commit, bind, get_db, raise.
  destruct (annotations db !! anno_pk) as [a'|]; [|intros [= <- _]; auto].
  case_bool_decide.
  { intros [= <- _]. right. right. eexists. split; [done|]. repeat constructor. }
  destruct (reconcile _ _ _ _ _ _ db) as [[st|e1] d1] eqn:Er.
  - destruct st.2; unfold modify, ret; simpl; intros [= ].
  - intros [= <- _]. left. by eapply reconcile_raised.
Qed.

(** X7: whatever the request, the import view answers ["<nop/>"] or raises
    [SuspiciousOperation] with one of seven messages; no other exception
    leaves it. *)
Theorem import_outcomes snapshot request now db r db' :
  post_annotation_xml snapshot request now db = (r, db') ->
  r = Ok "<nop/>"
  ∨ ∃ msg, r = Raised (SuspiciousOperation msg) ∧ msg ∈ import_messages.
Proof.
  unfold post_annotation_xml, bind, parse_annotation_xml, raise, import_messages.
  destruct (body request) as [xml|].
  2:{ intros [= <- _]. right. eexists. split; [done|]. repeat constructor. }
  destruct (process_annotation_xml snapshot request xml now db) as [[[]|e] d] eqn:E.
  - unfold ret. intros [= <- _]. by left.
  - apply process_annotation_xml_raises in E as [-> | [-> | (msg & -> & Hmsg)]].
    + intros [= <- _]. right. eexists. split; [done|]. repeat constructor.
    + intros [= <- _]. right. eexists. split; [done|]. repeat constructor.
    + intros [= <- _]. right. exists msg. split; [done|].
      repeat (apply elem_of_cons in Hmsg as [-> | Hmsg]); try (repeat constructor).
      by apply elem_of_nil in Hmsg.
Qed.

(** ** When an import succeeds *)

(** X8: an import served alone succeeds only if its annotation is
    resolved, its edit key is the stored one, its objects are read, and
    every identity that it submits without the deletion mark is that of a
    non-deleted polygon of the annotation. *)
Theorem import_success_requires request root now db db' :
  alone (fun s => process_annotation_xml s request root now) db = (Ok tt, db') ->
  ∃ anno_pk a anno_polygons,
    target db request root = Some (anno_pk, a)
    ∧ submitted_key root = Some (edit_key a)
    ∧ parse_objects (findall root "object") ∅ 0 = Some anno_polygons
    ∧ ∀ x id, x ∈ anno_polygons -> ap_id x = Some id -> ap_deleted x = false ->
        is_Some (polygons_of db anno_pk !! id).
Proof.
  unfold alone. intros Hok.
  apply process_annotation_xml_ok in Hok
    as (anno_pk & a & a' & aps & objs' & ch' & db1 & Ht & Hk & Hp & _ & _ & Hr & _).
  exists anno_pk, a, aps. repeat split; try done.
  intros x id Hin Hid Hdel. apply elem_of_dom.
  by eapply (reconcile_ok_identities _ _ _ _ _ _ _ _ _ (in_sync_snapshot db anno_pk) Hr).
Qed.

(** ** What an import keeps *)

Lemma reconcile_one_size anno_pk by_index now x (objs : gmap Z Polygon) ch db st db' :
  in_sync anno_pk objs db ->
  reconcile_one anno_pk by_index now x objs ch db = (Ok st, db') ->
  (size (polygons db') ≤ size (polygons db) + (if bool_decide (ap_id x = None) then 1 else 0))%nat.
Proof.
  intros [Hsub _]. unfold reconcile_one.
  destruct (match_polygon anno_pk objs by_index x) as [pk poly|poly| |] eqn:Em.
  - apply match_polygon_Loaded in Em.
    assert (Hrow : polygons db !! pk = Some poly) by (by eapply lookup_weaken).
    destruct (differs poly x).
    + unfold bind, save_polygon, modify, ret. simpl. intros [= _ <-]. simpl.
      rewrite map_size_insert_Some by eauto. lia.
    + unfold ret. intros [= _ <-]. lia.
  - apply match_polygon_Created in Em as (_ & Hid & _).
    unfold bind, save_polygon, modify, ret. simpl. intros [= _ <-]. simpl.
    rewrite map_size_insert_None by apply fresh_pk_fresh.
    rewrite bool_decide_eq_true_2 by done. lia.
  - unfold ret. intros [= _ <-]. lia.
  - done.
Qed.

Lemma reconcile_size anno_pk by_index now l (objs : gmap Z Polygon) ch db st db' :
  in_sync anno_pk objs db ->
  reconcile anno_pk by_index now l objs ch db = (Ok st, db') ->
  (size (polygons db') ≤ size (polygons db)
     + length (filter (fun x => ap_id x = None) l))%nat.
Proof.
  revert objs ch db. induction l as [|x l IH]; intros objs ch db Hsync; simpl.
  - unfold ret. intros [= _ <-]. lia.
  - unfold bind.
    destruct (reconcile_one anno_pk by_index now x objs ch db) as [[[objs1 ch1]|e] db1] eqn:E1;
      [|done].
    simpl. intros E2.
    pose proof (reconcile_one_size _ _ _ _ _ _ _ _ _ Hsync E1) as H1.
    apply reconcile_one_ok in E1 as (S1 & _); [|done].
    apply IH in E2; [|done].
    rewrite filter_cons. case_bool_decide as Hc.
    + rewrite decide_True by done. simpl. lia.
    + rewrite decide_False by done. lia.
Qed.

(** X9: a successful import served alone removes no polygon row, and adds
    at most one row for each object of the document that carries no
    identity. *)
Theorem import_adds_rows request root now db db' :
  alone (fun s => process_annotation_xml s request root now) db = (Ok tt, db') ->
  dom (polygons db) ⊆ dom (polygons db')
  ∧ (size (polygons db') ≤ size (polygons db)
       + length (filter (fun o => find o "c_poly_id" = None) (findall root "object")))%nat.
Proof.
  unfold alone. intros Hok.
  apply process_annotation_xml_ok in Hok
    as (anno_pk & a & a' & aps & objs' & ch' & db1 & _ & _ & Hp & _ & _ & Hr & Hdb).
  assert (Hpolys : polygons db' = polygons db1) by (subst db'; by destruct ch').
  rewrite Hpolys. split.
  - apply reconcile_ok in Hr as (_ & Ev & _); [|apply in_sync_snapshot].
    intros k [p Hk]%elem_of_dom.
    destruct (ev_rows _ _ _ _ _ _ Ev _ _ Hk) as (p' & Hp' & _).
    apply elem_of_dom. eauto.
  - apply reconcile_size in Hr; [|apply in_sync_snapshot].
    apply parse_objects_inv in Hp as (Hall & _).
    assert (Hcount : length (filter (fun x => ap_id x = None) aps)
                     = length (filter (fun o => find o "c_poly_id" = None)
                                 (findall root "object"))).
    { clear -Hall. induction Hall as [|o x objs l (_ & Hiff & _) Hall IH]; [done|].
      rewrite !filter_cons.
      destruct (decide (ap_id x = None)) as [Hx|Hx].
      - rewrite decide_True by (by apply Hiff). simpl. by rewrite IH.
      - rewrite decide_False by (intros Ho; by apply Hx, Hiff). done. }
    lia.
Qed.

Lemma reconcile_one_even anno_pk by_index now x (objs : gmap Z Polygon) ch db st db' :
  even_points db -> Nat.Even (length (ap_points x)) ->
  reconcile_one anno_pk by_index now x objs ch db = (Ok st, db') ->
  even_points db'.
Proof.
  intros Hev Hx. unfold reconcile_one.
  assert (Hins : ∀ k poly, even_points (set_polygons (insert k (assign poly x now)) db)).
  { intros k poly k' q. simpl. destruct (decide (k = k')) as [->|Hne].
    - rewrite lookup_insert_eq. by intros [= <-].
    - rewrite lookup_insert_ne by done. apply Hev. }
  destruct (match_polygon anno_pk objs by_index x) as [pk poly|poly| |].
  - destruct (differs poly x).
    + unfold bind, save_polygon, modify, ret. simpl. intros [= _ <-]. apply Hins.
    + unfold ret. by intros [= _ <-].
  - unfold bind, save_polygon, modify, ret. simpl. intros [= _ <-]. apply Hins.
  - unfold ret. by intros [= _ <-].
  - done.
Qed.

Lemma reconcile_even anno_pk by_index now l (objs : gmap Z Polygon) ch db st db' :
  even_points db -> Forall (fun x => Nat.Even (length (ap_points x))) l ->
  reconcile anno_pk by_index now l objs ch db = (Ok st, db') ->
  even_points db'.
Proof.
  revert objs ch db. induction l as [|x l IH]; intros objs ch db Hev Hall; simpl.
  - unfold ret. by intros [= _ <-].
  - apply Forall_cons in Hall as [Hx Hall]. unfold bind.
    destruct (reconcile_one anno_pk by_index now x objs ch db) as [[[objs1 ch1]|e] db1] eqn:E1;
      [|done].
    simpl. apply IH; [|done]. by eapply reconcile_one_even.
Qed.

(** X10: an import keeps the coordinates in pairs: if every stored polygon
    has an even number of coordinates, so has every polygon after any import
    (whatever was read before the transaction). *)
Theorem import_keeps_points_paired snapshot request root now db r db' :
  process_annotation_xml snapshot request root now db = (r, db') ->
  even_points db -> even_points db'.
Proof.
  destruct r as [[]|e]; [|by intros ->%process_annotation_xml_raised].
  intros Hok Hev.
  apply process_annotation_xml_ok in Hok
    as (anno_pk & a & a' & aps & objs' & ch' & db1 & _ & _ & Hp & _ & _ & Hr & Hdb).
  assert (Hpolys : polygons db' = polygons db1) by (subst db'; by destruct ch').
  unfold even_points. rewrite Hpolys.
  apply (reconcile_even _ _ _ _ _ _ _ _ _ Hev) in Hr; [done|].
  apply parse_objects_inv in Hp as (Hall & _).
  clear -Hall. induction Hall as [|o x objs l (_ & _ & Hx) Hall IH]; constructor; done.
Qed.

(** ** The file indices stay unique *)

Lemma index_fold_complete (rows : list (Z * Polygon)) (acc : gmap Z Z) i :
  is_Some (acc !! i) ∨ (∃ pk p, (pk, p) ∈ rows ∧ anno_index p = Some i) ->
  is_Some (foldl (fun m r => match anno_index r.2 with
                             | Some i => <[i := r.1]> m
                             | None => m
                             end) acc rows !! i).
Proof.
  revert acc. induction rows as [|[k q] rows IH]; intros acc; simpl.
  - intros [Hacc|(pk & p & Hin & _)]; [done|]. by apply elem_of_nil in Hin.
  - intros Hcase. apply IH.
    destruct Hcase as [Hacc|(pk & p & Hin & Hp)].
    + left. destruct (anno_index q) as [j|]; [|done].
      destruct (decide (j = i)) as [->|Hne].
      * rewrite lookup_insert_eq. eauto.
      * by rewrite lookup_insert_ne.
    + apply elem_of_cons in Hin as [[= -> ->]|Hin].
      * left. simpl. rewrite Hp, lookup_insert_eq. eauto.
      * right. eauto.
Qed.

Lemma index_polygons_complete (by_id : gmap Z Polygon) pk p i :
  by_id !! pk = Some p -> anno_index p = Some i ->
  is_Some (index_polygons by_id !! i).
Proof.
  intros Hpk Hp. apply index_fold_complete. right. exists pk, p.
  split; [|done]. by apply elem_of_map_to_list.
Qed.

Lemma reconcile_one_new_rows anno_pk by_index now x (objs : gmap Z Polygon) ch db st db' db0 :
  in_sync anno_pk objs db ->
  (∀ i pk, by_index !! i = Some pk -> pk ∈ dom objs) ->
  dom objs ⊆ dom (polygons db0) ->
  dom (polygons db0) ⊆ dom (polygons db) ->
  created_rows_indexed db0 by_index db (ap_index x) ->
  created_rows_distinct db0 db ->
  reconcile_one anno_pk by_index now x objs ch db = (Ok st, db') ->
  dom (polygons db0) ⊆ dom (polygons db')
  ∧ created_rows_indexed db0 by_index db' (ap_index x + 1)
  ∧ created_rows_distinct db0 db'.
Proof.
  intros [Hsub Hanno] Hsound Hobjs Hbase Hidx Hdist. unfold reconcile_one.
  assert (Hweak : created_rows_indexed db0 by_index db (ap_index x + 1)).
  { intros pk p H0 Hp. destruct (Hidx pk p H0 Hp) as (i & ? & ? & ?).
    exists i. repeat split; try done. lia. }
  destruct (match_polygon anno_pk objs by_index x) as [pk poly|poly| |] eqn:Em.
  - apply match_polygon_Loaded in Em.
    assert (Hrow : polygons db !! pk = Some poly) by (by eapply lookup_weaken).
    assert (Hold : is_Some (polygons db0 !! pk)).
    { apply elem_of_dom, Hobjs, elem_of_dom. eauto. }
    destruct (differs poly x).
    + unfold bind, save_polygon, modify, ret. simpl. intros [= _ <-]. simpl.
      split; [|split].
      * rewrite dom_insert_L. intros k Hk. apply elem_of_union. right. by apply Hbase.
      * intros k p H0; simpl. destruct (decide (pk = k)) as [->|Hne].
        { destruct Hold as [? ?]. congruence. }
        rewrite lookup_insert_ne by done. by apply Hweak.
      * intros k1 p1 k2 p2 H1 H2; simpl.
        destruct (decide (pk = k1)) as [->|Hne1]; [destruct Hold; congruence|].
        destruct (decide (pk = k2)) as [->|Hne2]; [destruct Hold; congruence|].
        rewrite !lookup_insert_ne by done. by apply Hdist.
    + unfold ret. by intros [= _ <-].
  - assert (Hnone : by_index !! ap_index x = None).
    { unfold match_polygon in Em. destruct (ap_id x) as [id|].
      - destruct (objs !! id); [done|]. by destruct (ap_deleted x).
      - destruct (by_index !! ap_index x) as [pk|] eqn:Ei; [|done]. simpl in Em.
        pose proof (Hsound _ _ Ei) as Hin. apply elem_of_dom in Hin as [q Hq].
        rewrite Hq in Em. done. }
    apply match_polygon_Created in Em as (-> & _ & _).
    unfold bind, save_polygon, modify, ret. simpl. intros [= _ <-]. simpl.
    pose proof (fresh_pk_fresh (polygons db)) as Hfresh.
    split; [|split].
    * rewrite dom_insert_L. intros k Hk. apply elem_of_union. right. by apply Hbase.
    * intros k p H0; simpl. destruct (decide (fresh_pk (polygons db) = k)) as [<-|Hne].
      { rewrite lookup_insert_eq. intros [= <-]. simpl.
        exists (ap_index x). repeat split; try done. lia. }
      rewrite lookup_insert_ne by done. by apply Hweak.
    * intros k1 p1 k2 p2 H1 H2; simpl.
      destruct (decide (fresh_pk (polygons db) = k1)) as [<-|Hne1];
        destruct (decide (fresh_pk (polygons db) = k2)) as [<-|Hne2]; try done.
      -- rewrite lookup_insert_eq, lookup_insert_ne by done.
         intros [= <-] Hp2 Heq. simpl in Heq.
         destruct (Hidx k2 p2 H2 Hp2) as (i & Hi & _ & Hlt).
         rewrite Hi in Heq. injection Heq as <-. lia.
      -- rewrite lookup_insert_ne, lookup_insert_eq by done.
         intros Hp1 [= <-] Heq. simpl in Heq.
         destruct (Hidx k1 p1 H1 Hp1) as (i & Hi & _ & Hlt).
         rewrite Hi in Heq. injection Heq as ->. lia.
      -- rewrite !lookup_insert_ne by done. by apply Hdist.
  - unfold ret. by intros [= _ <-].
  - done.
Qed.

Lemma reconcile_new_rows anno_pk by_index now l (objs : gmap Z Polygon) ch db st db' db0 k :
  (∀ n x, l !! n = Some x -> ap_index x = k + Z.of_nat n) ->
  in_sync anno_pk objs db ->
  (∀ i pk, by_index !! i = Some pk -> pk ∈ dom objs) ->
  dom objs ⊆ dom (polygons db0) ->
  dom (polygons db0) ⊆ dom (polygons db) ->
  created_rows_indexed db0 by_index db k ->
  created_rows_distinct db0 db ->
  reconcile anno_pk by_index now l objs ch db = (Ok st, db') ->
  created_rows_indexed db0 by_index db' (k + Z.of_nat (length l))
  ∧ created_rows_distinct db0 db'.
Proof.
  revert objs ch db k. induction l as [|x l IH];
    intros objs ch db k Hpos Hsync Hsound Hobjs Hbase Hidx Hdist; simpl.
  - unfold ret. intros [= _ <-]. split; [|done]. by rewrite Z.add_0_r.
  - unfold bind.
    destruct (reconcile_one anno_pk by_index now x objs ch db) as [[[objs1 ch1]|e] db1] eqn:E1;
      [|done].
    simpl. intros E2.
    assert (Hx : ap_index x = k) by (rewrite (Hpos 0%nat x eq_refl); lia).
    rewrite <- Hx in Hidx.
    destruct (reconcile_one_new_rows _ _ _ _ _ _ _ _ _ db0 Hsync Hsound Hobjs Hbase Hidx Hdist E1)
      as (Hbase1 & Hidx1 & Hdist1).
    apply reconcile_one_ok in E1 as (S1 & Ev1 & _); [|done].
    rewrite Hx in Hidx1.
    apply (IH objs1 ch1 db1 (k + 1)) in E2; try done.
    + replace (k + Z.of_nat (S (length l))) with (k + 1 + Z.of_nat (length l)) by lia. done.
    + intros n y Hy. rewrite (Hpos (S n) y Hy). lia.
    + intros i pk Hi. rewrite (ev_dom _ _ _ _ _ _ Ev1). eauto.
    + by rewrite (ev_dom _ _ _ _ _ _ Ev1).
Qed.

(** X11: a successful import served alone keeps the file indices unique:
    if no two non-deleted polygons of an annotation carried the same file
    index before, none do afterwards, for the annotation of the import as
    for any other. *)
Theorem import_keeps_indices_unique request root now db db' k :
  alone (fun s => process_annotation_xml s request root now) db = (Ok tt, db') ->
  indices_unique db k -> indices_unique db' k.
Proof.
  unfold alone. intros Hok Huniq.
  apply process_annotation_xml_ok in Hok
    as (anno_pk & a & a' & aps & objs' & ch' & db1 & _ & _ & Hp & _ & _ & Hr & Hdb).
  assert (Hpolys : polygons db' = polygons db1) by (subst db'; by destruct ch').
  assert (Hof : ∀ j, polygons_of db' j = polygons_of db1 j).
  { intros j. unfold polygons_of. by rewrite Hpolys. }
  unfold indices_unique. rewrite Hof. clear Hdb Hpolys Hof.
  pose proof (parse_objects_inv _ _ _ _ Hp) as (_ & Hpos & _).
  assert (Hsound : ∀ i pk, index_polygons (polygons_of db anno_pk) !! i = Some pk ->
            pk ∈ dom (polygons_of db anno_pk)).
  { intros i pk (p & Hpk & _)%index_polygons_sound. apply elem_of_dom. eauto. }
  assert (Hidx0 : created_rows_indexed db (index_polygons (polygons_of db anno_pk)) db 0).
  { intros pk p H0 Hp0. congruence. }
  assert (Hdist0 : created_rows_distinct db db).
  { intros pk1 p1 pk2 p2 H1 H2 Hp1. congruence. }
  destruct (reconcile_new_rows anno_pk (index_polygons (polygons_of db anno_pk)) now aps
              (polygons_of db anno_pk) false db (objs', ch') db1 db 0
              Hpos (in_sync_snapshot db anno_pk) Hsound
              (subseteq_dom _ _ (polygons_of_subseteq db anno_pk))
              (reflexivity _) Hidx0 Hdist0 Hr) as [Hidx Hdist].
  apply reconcile_ok in Hr as (_ & Ev & _); [|apply in_sync_snapshot].
  (* a row that existed and is now a live polygon of [k] was one before,
     with the same file index *)
  assert (Hold : ∀ pk p' p0, polygons db !! pk = Some p0 ->
            polygons_of db1 k !! pk = Some p' ->
            ∃ p, polygons_of db k !! pk = Some p ∧ anno_index p = anno_index p').
  { intros pk p' p0 Hp0 (Hrow' & Ha' & Hd')%polygons_of_lookup.
    destruct (ev_rows _ _ _ _ _ _ Ev _ _ Hp0) as (q & Hq & (Ka & Ki & _) & C).
    assert (q = p') as -> by congruence.
    exists p0. split; [|done].
    destruct C as [->|[Hin _]].
    - by apply polygons_of_lookup.
    - apply elem_of_dom in Hin as [q Hq'].
      pose proof (lookup_weaken _ _ _ _ Hq' (polygons_of_subseteq db anno_pk)) as Hq''.
      assert (q = p0) as -> by congruence.
      apply polygons_of_lookup in Hq' as (_ & Ha0 & Hd0).
      apply polygons_of_lookup. repeat split; [done| |done]. congruence. }
  (* a row that did not exist belongs to the annotation of the import *)
  assert (Hnew : ∀ pk p', polygons db !! pk = None ->
            polygons_of db1 k !! pk = Some p' -> k = anno_pk ∧ polygons db1 !! pk = Some p').
  { intros pk p' H0 (Hrow' & Ha' & Hd')%polygons_of_lookup.
    destruct (ev_new _ _ _ _ _ _ Ev _ _ H0 Hrow') as (Ha & _). split; [congruence|done]. }
  intros pk1 p1 pk2 p2 i H1 H2 Hi1 Hi2.
  destruct (polygons db !! pk1) as [q1|] eqn:E1; destruct (polygons db !! pk2) as [q2|] eqn:E2.
  - destruct (Hold _ _ _ E1 H1) as (r1 & Hr1 & Hir1).
    destruct (Hold _ _ _ E2 H2) as (r2 & Hr2 & Hir2).
    apply (Huniq pk1 r1 pk2 r2 i); congruence.
  - exfalso. destruct (Hold _ _ _ E1 H1) as (r1 & Hr1 & Hir1).
    destruct (Hnew _ _ E2 H2) as [-> Hrow2].
    destruct (Hidx _ _ E2 Hrow2) as (j & Hj & Hnone & _).
    assert (j = i) as -> by congruence.
    destruct (index_polygons_complete (polygons_of db anno_pk) pk1 r1 i) as [? ?];
      [done|congruence|congruence].
  - exfalso. destruct (Hold _ _ _ E2 H2) as (r2 & Hr2 & Hir2).
    destruct (Hnew _ _ E1 H1) as [-> Hrow1].
    destruct (Hidx _ _ E1 Hrow1) as (j & Hj & Hnone & _).
    assert (j = i) as -> by congruence.
    destruct (index_polygons_complete (polygons_of db anno_pk) pk2 r2 i) as [? ?];
      [done|congruence|congruence].
  - destruct (Hnew _ _ E1 H1) as [_ Hrow1]. destruct (Hnew _ _ E2 H2) as [_ Hrow2].
    apply (Hdist pk1 p1 pk2 p2); congruence.
Qed.

(** ** The submitted fields reach the row *)

Lemma match_polygon_Loaded_key anno_pk (objs : gmap Z Polygon) by_index x pk poly :
  match_polygon anno_pk objs by_index x = Loaded pk poly ->
  ap_id x = Some pk ∨ by_index !! ap_index x = Some pk.
Proof.
  unfold match_polygon. destruct (ap_id x) as [id|].
  - destruct (objs !! id); [intros [= -> _]; by left|]. by destruct (ap_deleted x).
  - destruct (by_index !! ap_index x) as [k|]; simpl.
    + destruct (objs !! k); simpl; [intros [= -> _]; by right|].
      by destruct (ap_deleted x).
    + by destruct (ap_deleted x).
Qed.

Lemma reconcile_one_untouched anno_pk by_index now x (objs : gmap Z Polygon) ch db st db' pk q :
  in_sync anno_pk objs db -> objs !! pk = Some q ->
  ap_id x ≠ Some pk -> by_index !! ap_index x ≠ Some pk ->
  reconcile_one anno_pk by_index now x objs ch db = (Ok st, db') ->
  st.1 !! pk = Some q ∧ polygons db' !! pk = Some q.
Proof.
  intros [Hsub _] Hq Hid Hidx. unfold reconcile_one.
  assert (Hrow : polygons db !! pk = Some q) by (by eapply lookup_weaken).
  destruct (match_polygon anno_pk objs by_index x) as [k poly|poly| |] eqn:Em.
  - assert (k ≠ pk).
    { apply match_polygon_Loaded_key in Em as [?|?]; congruence. }
    destruct (differs poly x).
    + unfold bind, save_polygon, modify, ret. simpl. intros [= <- <-]. simpl.
      by rewrite !lookup_insert_ne.
    + unfold ret. by intros [= <- <-].
  - unfold bind, save_polygon, modify, ret. simpl. intros [= <- <-]. simpl.
    split; [done|]. rewrite lookup_insert_ne; [done|].
    intros Heq. pose proof (fresh_pk_fresh (polygons db)). congruence.
  - unfold ret. by intros [= <- <-].
  - done.
Qed.

Lemma reconcile_untouched anno_pk by_index now l (objs : gmap Z Polygon) ch db st db' pk q :
  in_sync anno_pk objs db -> objs !! pk = Some q ->
  Forall (fun x => ap_id x ≠ Some pk) l -> (∀ i, by_index !! i ≠ Some pk) ->
  reconcile anno_pk by_index now l objs ch db = (Ok st, db') ->
  st.1 !! pk = Some q ∧ polygons db' !! pk = Some q.
Proof.
  revert objs ch db. induction l as [|x l IH]; intros objs ch db Hsync Hq Hall Hidx; simpl.
  - unfold ret. intros [= <- <-]. split; [done|]. destruct Hsync as [Hsub _].
    by eapply lookup_weaken.
  - apply Forall_cons in Hall as [Hx Hall]. unfold bind.
    destruct (reconcile_one anno_pk by_index now x objs ch db) as [[[objs1 ch1]|e] db1] eqn:E1;
      [|done].
    simpl. intros E2.
    destruct (reconcile_one_untouched _ _ _ _ _ _ _ _ _ pk q Hsync Hq Hx (Hidx _) E1)
      as [Hq1 _].
    apply reconcile_one_ok in E1 as (S1 & _); [|done].
    by apply (IH objs1 ch1 db1).
Qed.

Lemma reconcile_one_applied anno_pk by_index now x (objs : gmap Z Polygon) ch db st db' id q :
  in_sync anno_pk objs db -> objs !! id = Some q -> ap_id x = Some id ->
  reconcile_one anno_pk by_index now x objs ch db = (Ok st, db') ->
  ∃ q', st.1 !! id = Some q' ∧ kept q q' ∧ applied q q' x.
Proof.
  intros [Hsub _] Hq Hid. unfold reconcile_one.
  rewrite (match_polygon_by_id _ _ _ _ id) by done. rewrite Hq.
  destruct (differs q x) eqn:Ed.
  - unfold bind, save_polygon, modify, ret. simpl. intros [= <- _]. simpl.
    exists (assign q x now). rewrite lookup_insert_eq.
    split; [done|]. split; [apply kept_assign|]. unfold applied. simpl. tauto.
  - unfold ret. intros [= <- _]. exists q. split; [done|]. split; [apply kept_refl|].
    unfold differs in Ed. unfold applied.
    repeat (case_bool_decide; [done|]).
    destruct (points_ne (points q) (ap_points x)) eqn:Ep; [done|].
    case_bool_decide; [done|]. tauto.
Qed.

(** X12: after a successful import served alone, a polygon that the
    document submits with its identity, and that has no file index (as
    after an export), holds the submitted label, notes, occlusion and
    deletion flag; its coordinates are the submitted ones, unless nothing at
    all differed and the row was left as it was.  Its annotation, file index
    and [locked] flag are as before. *)
Theorem import_applies_fields request root now db db' anno_pk a anno_polygons x id p :
  alone (fun s => process_annotation_xml s request root now) db = (Ok tt, db') ->
  target db request root = Some (anno_pk, a) ->
  parse_objects (findall root "object") ∅ 0 = Some anno_polygons ->
  x ∈ anno_polygons -> ap_id x = Some id ->
  polygons_of db anno_pk !! id = Some p -> anno_index p = None ->
  ∃ p', polygons db' !! id = Some p' ∧ kept p p' ∧ applied p p' x.
Proof.
  unfold alone. intros Hok Ht Hparse Hin Hid Hp Hnoidx.
  apply process_annotation_xml_ok in Hok
    as (k & a0 & a' & aps & objs' & ch' & db1 & Ht' & _ & Hp' & _ & _ & Hr & Hdb).
  assert (k = anno_pk) as -> by congruence.
  assert (aps = anno_polygons) as -> by congruence.
  assert (Hpolys : polygons db' = polygons db1) by (subst db'; by destruct ch').
  rewrite Hpolys. clear Hdb Hpolys.
  pose proof (parse_objects_inv _ _ _ _ Hparse) as (_ & _ & Hnd & _).
  apply list_elem_of_split in Hin as (l1 & l2 & ->).
  rewrite omap_app in Hnd. simpl in Hnd. rewrite Hid in Hnd.
  apply NoDup_app in Hnd as (_ & Hdisj & Hnd2).
  apply NoDup_cons in Hnd2 as [Hnot2 _].
  assert (Hl1 : Forall (fun y => ap_id y ≠ Some id) l1).
  { apply Forall_forall. intros y Hy Hyid. apply (Hdisj id).
    - apply list_elem_of_omap. eauto.
    - left. }
  assert (Hl2 : Forall (fun y => ap_id y ≠ Some id) l2).
  { apply Forall_forall. intros y Hy Hyid. apply Hnot2.
    apply list_elem_of_omap. eauto. }
  assert (Hidx : ∀ i, index_polygons (polygons_of db anno_pk) !! i ≠ Some id).
  { intros i (q & Hq & Hqi)%index_polygons_sound. congruence. }
  rewrite reconcile_app in Hr.
  destruct (reconcile anno_pk _ now l1 _ false db) as [[[objs1 ch1]|e] d1] eqn:E1; [|done].
  simpl in Hr.
  destruct (reconcile_untouched _ _ _ _ _ _ _ _ _ id p
              (in_sync_snapshot db anno_pk) Hp Hl1 Hidx E1) as [Hq1 _].
  apply reconcile_ok in E1 as (S1 & _); [|apply in_sync_snapshot].
  unfold bind in Hr. simpl in Hq1.
  destruct (reconcile_one anno_pk _ now x objs1 ch1 d1) as [[[objs2 ch2]|e] d2] eqn:E2; [|done].
  simpl in Hr.
  destruct (reconcile_one_applied _ _ _ _ _ _ _ _ _ id p S1 Hq1 Hid E2)
    as (p' & Hp2 & K & A). simpl in Hp2.
  apply reconcile_one_ok in E2 as (S2 & _); [|done].
  destruct (reconcile_untouched _ _ _ _ _ _ _ _ _ id p' S2 Hp2 Hl2 Hidx Hr) as [_ Hfin].
  eauto.
Qed.

(** ** The file name of the document *)

Lemma string_length_app (s t : string) :
  String.length (s +:+ t) = (String.length s + String.length t)%nat.
Proof. induction s as [|c s IH]; simpl; [done|]. by rewrite IH. Qed.

Lemma substring_all (s : string) : String.substring 0 (String.length s) s = s.
Proof. induction s as [|c s IH]; simpl; [done|]. by rewrite IH. Qed.

Lemma substring_prefix (s t : string) :
  String.substring 0 (String.length s) (s +:+ t) = s.
Proof.
  induction s as [|c s IH]; simpl; [by destruct t|]. by rewrite IH.
Qed.

Lemma substring_suffix (r t : string) :
  String.substring (String.length r) (String.length t) (r +:+ t) = t.
Proof. induction r as [|c r IH]; simpl; [apply substring_all|done]. Qed.

Lemma substring_split (s : string) (m : nat) :
  (m ≤ String.length s)%nat ->
  s = String.substring 0 m s +:+ String.substring m (String.length s - m) s.
Proof.
  revert m. induction s as [|c s IH]; intros m Hm; simpl in *.
  - by destruct m.
  - destruct m as [|m]; simpl.
    + by rewrite substring_all.
    + change (String c s = String c (String.substring 0 m s
                +:+ String.substring m (String.length s - m) s)).
      f_equal. apply IH. lia.
Qed.

Lemma endswith_iff (s suffix : string) :
  endswith s suffix = true <-> ∃ r, s = r +:+ suffix.
Proof.
  unfold endswith. rewrite andb_true_iff, Nat.leb_le, String.eqb_eq. split.
  - intros [Hle Hsub].
    exists (String.substring 0 (String.length s - String.length suffix) s).
    pose proof (substring_split s (String.length s - String.length suffix) ltac:(lia)) as Hs.
    replace (String.length s - (String.length s - String.length suffix))%nat
      with (String.length suffix) in Hs by lia.
    by rewrite Hsub in Hs.
  - intros [r ->]. rewrite string_length_app. split; [lia|].
    replace (String.length r + String.length suffix - String.length suffix)%nat
      with (String.length r) by lia.
    apply substring_suffix.
Qed.

Lemma prefix_img (s : string) :
  String.prefix "img" s = true <-> ∃ t, s = "img" +:+ t.
Proof.
  rewrite String.prefix_correct. split.
  - destruct s as [|c1 [|c2 [|c3 t]]]; simpl; try done.
    intros [= -> -> -> _]. eauto.
  - intros [t ->]. simpl. by destruct t.
Qed.

(** A name that begins with [img] and ends with [.jpg] is [img], a middle
    part, and [.jpg]; the slice [filename[3:-4]] is the middle part. *)
Lemma filename_decompose (filename : string) :
  String.prefix "img" filename = true ∧ endswith filename ".jpg" = true
  <-> ∃ s, filename = "img" +:+ s +:+ ".jpg".
Proof.
  rewrite prefix_img, endswith_iff. split.
  - intros [[t ->] [r Hr]].
    destruct r as [|c1 [|c2 [|c3 s]]]; try done.
    change (String "i" (String "m" (String "g" t))
            = String c1 (String c2 (String c3 (s +:+ ".jpg")))) in Hr.
    injection Hr as <- <- <- ->. eauto.
  - intros [s ->]. split; [eauto|]. by exists ("img" +:+ s).
Qed.

Lemma filename_slice (s : string) :
  String.substring 3 (String.length ("img" +:+ s +:+ ".jpg") - 7) ("img" +:+ s +:+ ".jpg") = s.
Proof.
  rewrite !string_length_app.
  replace (String.length "img" + (String.length s + String.length ".jpg") - 7)%nat
    with (String.length s) by (simpl; lia).
  change (String.substring 0 (String.length s) (s +:+ ".jpg") = s).
  apply substring_prefix.
Qed.

(** X13: the import accepts as file name exactly [img], a text that [int]
    reads as the key of a visible image, and [.jpg]; the image it resolves
    is the one of that key. *)
Theorem lookup_image_iff db root image_id img :
  lookup_image db root = Some (image_id, img)
  <-> ∃ s, find_str root "filename" = Some ("img" +:+ s +:+ ".jpg")
           ∧ py_int s = Some image_id
           ∧ images db !! image_id = Some img ∧ visible img = true.
Proof.
  unfold lookup_image. split.
  - destruct (find_str root "filename") as [filename|]; simpl; [|done].
    destruct (String.prefix "img" filename) eqn:Ep; simpl; [|done].
    destruct (endswith filename ".jpg") eqn:Ee; simpl; [|done].
    destruct (proj1 (filename_decompose filename) (conj Ep Ee)) as [s ->].
    rewrite filename_slice.
    destruct (py_int s) as [i|] eqn:Es; simpl; [|done].
    destruct (images db !! i) as [im|] eqn:Ei; simpl; [|done].
    destruct (visible im) eqn:Ev; simpl; [|done].
    intros [= <- <-]. exists s. done.
  - intros (s & -> & Hint & Hrow & Hvis).
    destruct (proj2 (filename_decompose ("img" +:+ s +:+ ".jpg"))) as [Hp He]; [eauto|].
    cbn [mbind option_bind]. rewrite Hp, He. cbn [negb orb].
    rewrite filename_slice, Hint. cbn [mbind option_bind]. rewrite Hrow.
    cbn [mbind option_bind]. by rewrite Hvis.
Qed.

(** ** The text of the exported document *)

Lemma occurs_app c (s t : string) : occurs c (s +:+ t) = occurs c s || occurs c t.
Proof. induction s as [|d s IH]; simpl; [done|]. by rewrite IH, orb_assoc. Qed.

Lemma xml_escape_no_markup (s : string) :
  occurs "<" (xml_escape s) = false ∧ occurs ">" (xml_escape s) = false.
Proof.
  induction s as [|c s [IH1 IH2]]; simpl; [done|].
  destruct (Ascii.eqb c "&") eqn:Ea; [by rewrite !occurs_app, IH1, IH2|].
  destruct (Ascii.eqb c "<") eqn:El; [by rewrite !occurs_app, IH1, IH2|].
  destruct (Ascii.eqb c ">") eqn:Eg; [by rewrite !occurs_app, IH1, IH2|].
  simpl. by rewrite El, Eg, IH1, IH2.
Qed.

(** X14: in the strings the export writes for a polygon, the label and the
    notes stand escaped between their tags: the text between the tags holds
    no [<] and no [>]. *)
Theorem export_escapes_text annotation pk (polygon : Polygon) strs :
  polygon_xml annotation pk polygon = Ok strs ->
  ∃ name attributes,
    strs !! 2%nat = Some ("<name>" +:+ name +:+ "</name>")
    ∧ strs !! 5%nat = Some ("<attributes>" +:+ attributes +:+ "</attributes>")
    ∧ Some name = xml_escape <$> label_as_str polygon
    ∧ attributes = xml_escape (notes polygon)
    ∧ occurs "<" name = false ∧ occurs ">" name = false
    ∧ occurs "<" attributes = false ∧ occurs ">" attributes = false.
Proof.
  unfold polygon_xml. destruct (label_as_str polygon) as [label|]; [|done].
  destruct (points_xml (points polygon)) as [pts|]; [|done].
  intros [= <-]. exists (xml_escape label), (xml_escape (notes polygon)).
  destruct (xml_escape_no_markup label), (xml_escape_no_markup (notes polygon)).
  repeat split; done.
Qed.

(** ** What a successful import writes *)

Lemma match_polygon_same_dom anno_pk (objs objs' : gmap Z Polygon) by_index x :
  dom objs' = dom objs ->
  match match_polygon anno_pk objs' by_index x with
  | Loaded pk _ => ∃ q, match_polygon anno_pk objs by_index x = Loaded pk q
  | m => match_polygon anno_pk objs by_index x = m
  end.
Proof.
  intros Hdom.
  assert (Hsome : ∀ k q', objs' !! k = Some q' -> ∃ q, objs !! k = Some q).
  { intros k q' Hk. apply elem_of_dom. rewrite <- Hdom. apply elem_of_dom. eauto. }
  assert (Hnone : ∀ k, objs' !! k = None -> objs !! k = None).
  { intros k Hk. apply not_elem_of_dom. rewrite <- Hdom. by apply not_elem_of_dom. }
  unfold match_polygon. destruct (ap_id x) as [id|].
  - destruct (objs' !! id) as [q'|] eqn:E'.
    + destruct (Hsome _ _ E') as [q ->]. eauto.
    + rewrite (Hnone _ E'). by destruct (ap_deleted x).
  - destruct (by_index !! ap_index x) as [k|]; simpl; [|by destruct (ap_deleted x)].
    destruct (objs' !! k) as [q'|] eqn:E'; simpl.
    + destruct (Hsome _ _ E') as [q ->]. simpl. eauto.
    + rewrite (Hnone _ E'). simpl. by destruct (ap_deleted x).
Qed.

Lemma reconcile_one_row anno_pk by_index now x (objs : gmap Z Polygon) ch db st db' pk p :
  in_sync anno_pk objs db -> polygons db !! pk = Some p ->
  reconcile_one anno_pk by_index now x objs ch db = (Ok st, db') ->
  polygons db' !! pk = Some p
  ∨ ((∃ q, match_polygon anno_pk objs by_index x = Loaded pk q)
     ∧ polygons db' !! pk = Some (assign p x now)).
Proof.
  intros [Hsub _] Hp. unfold reconcile_one.
  destruct (match_polygon anno_pk objs by_index x) as [k poly|poly| |] eqn:Em.
  - pose proof (match_polygon_Loaded _ _ _ _ _ _ Em) as Hk.
    assert (Hrow : polygons db !! k = Some poly) by (by eapply lookup_weaken).
    destruct (differs poly x).
    + unfold bind, save_polygon, modify, ret. simpl. intros [= _ <-]. simpl.
      destruct (decide (k = pk)) as [->|Hne].
      * right. split; [eauto|]. rewrite lookup_insert_eq. congruence.
      * left. by rewrite lookup_insert_ne.
    + unfold ret. intros [= _ <-]. by left.
  - unfold bind, save_polygon, modify, ret. simpl. intros [= _ <-]. simpl. left.
    rewrite lookup_insert_ne; [done|].
    intros Heq. pose proof (fresh_pk_fresh (polygons db)). congruence.
  - unfold ret. intros [= _ <-]. by left.
  - done.
Qed.

Lemma reconcile_rows anno_pk by_index now l (objs : gmap Z Polygon) ch db st db' pk p :
  in_sync anno_pk objs db -> polygons db !! pk = Some p ->
  reconcile anno_pk by_index now l objs ch db = (Ok st, db') ->
  polygons db' !! pk = Some p
  ∨ ∃ x, x ∈ l ∧ (∃ q, match_polygon anno_pk objs by_index x = Loaded pk q)
         ∧ polygons db' !! pk = Some (assign p x now).
Proof.
  revert objs ch db p. induction l as [|x l IH]; intros objs ch db p Hsync Hp; simpl.
  - unfold ret. intros [= _ <-]. by left.
  - unfold bind.
    destruct (reconcile_one anno_pk by_index now x objs ch db) as [[[objs1 ch1]|e] db1] eqn:E1;
      [|done].
    simpl. intros E2.
    pose proof (reconcile_one_row _ _ _ _ _ _ _ _ _ _ _ Hsync Hp E1) as H1.
    apply reconcile_one_ok in E1 as (S1 & Ev1 & _); [|done].
    assert (Hm : ∀ y, (∃ q, match_polygon anno_pk objs1 by_index y = Loaded pk q) ->
                 ∃ q, match_polygon anno_pk objs by_index y = Loaded pk q).
    { intros y [q Hq].
      pose proof (match_polygon_same_dom anno_pk objs objs1 by_index y
                    (ev_dom _ _ _ _ _ _ Ev1)) as Hs.
      by rewrite Hq in Hs. }
    destruct H1 as [H1 | [Hx H1]].
    + destruct (IH _ _ _ _ S1 H1 E2) as [Hf | (y & Hy & Hmy & Hf)]; [by left|].
      right. exists y. split; [by right|]. split; [by apply Hm|done].
    + destruct (IH _ _ _ _ S1 H1 E2) as [Hf | (y & Hy & Hmy & Hf)].
      * right. exists x. split; [by left|]. done.
      * right. exists y. split; [by right|]. split; [by apply Hm|exact Hf].
Qed.

Lemma reconcile_one_created anno_pk by_index now x (objs : gmap Z Polygon) ch db st db' pk p' :
  in_sync anno_pk objs db -> polygons db !! pk = None ->
  reconcile_one anno_pk by_index now x objs ch db = (Ok st, db') ->
  polygons db' !! pk = Some p' ->
  match_polygon anno_pk objs by_index x = Created (new_Polygon anno_pk (ap_index x))
  ∧ p' = assign (new_Polygon anno_pk (ap_index x)) x now.
Proof.
  intros [Hsub _] Hnone. unfold reconcile_one.
  destruct (match_polygon anno_pk objs by_index x) as [k poly|poly| |] eqn:Em.
  - pose proof (match_polygon_Loaded _ _ _ _ _ _ Em) as Hk.
    assert (Hrow : polygons db !! k = Some poly) by (by eapply lookup_weaken).
    destruct (differs poly x).
    + unfold bind, save_polygon, modify, ret. simpl. intros [= _ <-]. simpl.
      rewrite lookup_insert_ne by congruence. congruence.
    + unfold ret. intros [= _ <-]. congruence.
  - destruct (match_polygon_Created _ _ _ _ _ Em) as (-> & _).
    unfold bind, save_polygon, modify, ret. simpl. intros [= _ <-]. simpl.
    destruct (decide (fresh_pk (polygons db) = pk)) as [->|Hne].
    + rewrite lookup_insert_eq. intros [= <-]. done.
    + rewrite lookup_insert_ne by done. congruence.
  - unfold ret. intros [= _ <-]. congruence.
  - done.
Qed.

Lemma reconcile_created anno_pk by_index now l (objs : gmap Z Polygon) ch db st db' pk p' :
  in_sync anno_pk objs db -> polygons db !! pk = None ->
  reconcile anno_pk by_index now l objs ch db = (Ok st, db') ->
  polygons db' !! pk = Some p' ->
  ∃ x, x ∈ l
    ∧ match_polygon anno_pk objs by_index x = Created (new_Polygon anno_pk (ap_index x))
    ∧ p' = assign (new_Polygon anno_pk (ap_index x)) x now.
Proof.
  revert objs ch db. induction l as [|x l IH]; intros objs ch db Hsync Hnone; simpl.
  - unfold ret. intros [= _ <-]. congruence.
  - unfold bind.
    destruct (reconcile_one anno_pk by_index now x objs ch db) as [[[objs1 ch1]|e] db1] eqn:E1;
      [|done].
    simpl. intros E2 Hfin.
    pose proof (reconcile_one_ok _ _ _ _ _ _ _ _ _ _ Hsync E1) as (S1 & Ev1 & _).
    destruct (polygons db1 !! pk) as [p1|] eqn:Ep1.
    + destruct (reconcile_one_created _ _ _ _ _ _ _ _ _ _ _ Hsync Hnone E1 Ep1) as [Hm ->].
      exists x. split; [by left|]. split; [done|].
      destruct (reconcile_rows _ _ _ _ _ _ _ _ _ _ _ S1 Ep1 E2)
        as [Hf | (y & _ & [q Hq] & _)]; [congruence|].
      exfalso. apply match_polygon_Loaded in Hq.
      assert (Hin : pk ∈ dom objs).
      { rewrite <- (ev_dom _ _ _ _ _ _ Ev1). apply elem_of_dom. eauto. }
      apply elem_of_dom in Hin as [q0 Hq0].
      destruct Hsync as [Hsub _].
      pose proof (lookup_weaken _ _ _ _ Hq0 Hsub). congruence.
    + destruct (IH _ _ _ S1 Ep1 E2 Hfin) as (y & Hy & Hm & Hp').
      exists y. split; [by right|]. split; [|done].
      pose proof (match_polygon_same_dom anno_pk objs objs1 by_index y
                    (ev_dom _ _ _ _ _ _ Ev1)) as Hs.
      by rewrite Hm in Hs.
Qed.

(** X15: an import that succeeds, and whose loaded polygons are still as
    stored when its transaction opens, leaves the images alone; a polygon
    row that existed is the same row afterwards, unless a submitted polygon
    was matched to it: then it holds the submitted label, notes, occlusion,
    coordinates and deletion flag and [last_edit_time = now], with its
    annotation, file index and [locked] flag as before; a row that did not
    exist holds a submitted polygon for which a record was created; the
    annotations table is the same or has [last_edit_time] of the annotation
    set (it is set when the polygons table changed), so no edit key and no
    [locked] flag moves; and the [<verified>] elements of the document have
    no effect at all. *)
Theorem import_frame snapshot request root now db db' anno_pk a :
  process_annotation_xml snapshot request root now db = (Ok tt, db') ->
  target snapshot request root = Some (anno_pk, a) ->
  polygons_of snapshot anno_pk ⊆ polygons db ->
  (∃ anno_polygons,
     parse_objects (findall root "object") ∅ 0 = Some anno_polygons
     ∧ images db' = images db
     ∧ (annotations db' = annotations db
        ∨ annotations db' = alter (set_last_edit_time now) anno_pk (annotations db))
     ∧ (polygons db' ≠ polygons db ->
        annotations db' = alter (set_last_edit_time now) anno_pk (annotations db))
     ∧ (∀ pk x, annotations db !! pk = Some x ->
          ∃ x', annotations db' !! pk = Some x'
                ∧ edit_key x' = edit_key x ∧ a_locked x' = a_locked x
                ∧ a_deleted x' = a_deleted x ∧ annotator x' = annotator x
                ∧ image x' = image x)
     ∧ (∀ pk p, polygons db !! pk = Some p ->
          polygons db' !! pk = Some p
          ∨ ∃ x, x ∈ anno_polygons
              ∧ (∃ q, match_polygon anno_pk (polygons_of snapshot anno_pk)
                        (index_polygons (polygons_of snapshot anno_pk)) x = Loaded pk q)
              ∧ polygons db' !! pk = Some (assign p x now))
     ∧ (∀ pk p', polygons db !! pk = None -> polygons db' !! pk = Some p' ->
          ∃ x, x ∈ anno_polygons
            ∧ match_polygon anno_pk (polygons_of snapshot anno_pk)
                (index_polygons (polygons_of snapshot anno_pk)) x
              = Created (new_Polygon anno_pk (ap_index x))
            ∧ p' = assign (new_Polygon anno_pk (ap_index x)) x now))
  ∧ (∀ s d, process_annotation_xml s request (without_verified root) now d
            = process_annotation_xml s request root now d).
Proof.
  intros Hok Ht Hsub. split; [|intros; apply process_without_verified].
  apply process_annotation_xml_ok in Hok
    as (anno_pk' & a0 & a' & aps & objs' & ch' & db1 & Ht' & _ & Hp & _ & _ & Hr & Hdb).
  rewrite Ht in Ht'. injection Ht' as <- <-. subst db'.
  assert (Hsync : in_sync anno_pk (polygons_of snapshot anno_pk) db).
  { split; [done|]. intros pk p Hpk. by apply polygons_of_lookup in Hpk as (_ & ? & _). }
  pose proof (reconcile_ok _ _ _ _ _ _ _ _ _ _ Hsync Hr) as (_ & [Ei Ea Ed Eo Er En] & _ & Hch).
  assert (Hannos : annotations (if ch'
             then set_annotations (alter (set_last_edit_time now) anno_pk) db1 else db1)
           = if ch' then alter (set_last_edit_time now) anno_pk (annotations db)
             else annotations db).
  { destruct ch'; simpl; by rewrite Ea. }
  assert (Hpolys : polygons (if ch'
             then set_annotations (alter (set_last_edit_time now) anno_pk) db1 else db1)
           = polygons db1) by (by destruct ch').
  assert (Himgs : images (if ch'
             then set_annotations (alter (set_last_edit_time now) anno_pk) db1 else db1)
           = images db1) by (by destruct ch').
  exists aps. rewrite Hannos, Hpolys, Himgs.
  split; [done|]. split; [done|].
  split; [destruct ch'; auto|].
  split. { intros Hne. destruct Hch as [Hch | ->]; [done|done]. }
  split.
  { intros pk x Hx. destruct ch'; [|eauto 10].
    destruct (decide (anno_pk = pk)) as [->|Hne].
    - rewrite lookup_alter_eq, Hx. simpl. eauto 10.
    - rewrite lookup_alter_ne by done. eauto 10. }
  split.
  - intros pk p Hpk. by eapply reconcile_rows.
  - intros pk p' Hnone Hsome. by eapply reconcile_created.
Qed.

(** ** Deciding the invariants on a given database *)

Lemma even_points_decide (db : DB) :
  bool_decide (map_Forall (fun _ p => Nat.even (length (points p)) = true) (polygons db)) = true ->
  even_points db.
Proof.
  intros Hd%bool_decide_eq_true pk p Hp. apply Nat.even_spec. by apply (Hd pk p).
Qed.

Lemma NoDup_omap_inj {A C} (f : A -> option C) (l : list A) x y i :
  NoDup (omap f l) -> x ∈ l -> y ∈ l -> f x = Some i -> f y = Some i ->
  x = y.
Proof.
  induction l as [|z l IH]; intros Hnd Hx Hy Hfx Hfy; [by apply elem_of_nil in Hx|].
  simpl in Hnd.
  assert (Hmem : ∀ w, w ∈ l -> f w = Some i -> i ∈ omap f l).
  { intros w Hw Hfw. apply list_elem_of_omap. eauto. }
  apply elem_of_cons in Hx as [->|Hx]; apply elem_of_cons in Hy as [->|Hy].
  - done.
  - rewrite Hfx in Hnd. apply NoDup_cons in Hnd as [Hnot _]. destruct Hnot. eauto.
  - rewrite Hfy in Hnd. apply NoDup_cons in Hnd as [Hnot _]. destruct Hnot. eauto.
  - apply IH; try done. destruct (f z); [by apply NoDup_cons in Hnd as [_ ?]|done].
Qed.

Lemma indices_unique_decide (db : DB) (k : Z) :
  bool_decide (NoDup (omap (fun r : Z * Polygon => anno_index r.2)
                        (map_to_list (polygons_of db k)))) = true ->
  indices_unique db k.
Proof.
  intros Hd%bool_decide_eq_true pk1 p1 pk2 p2 i H1 H2 Hi1 Hi2.
  apply elem_of_map_to_list in H1, H2.
  by injection (NoDup_omap_inj _ _ (pk1, p1) (pk2, p2) i Hd H1 H2 Hi1 Hi2).
Qed.

End Further.

(** * The views on concrete requests *)

Module Evaluation.
Import Fixture.
#[local] Existing Instance Plain.hundredths.
#[local] Existing Instance Plain.builtins.

Lemma import_error_writes_nothing_witness :
  (post_annotation_xml db0 (as_user 10 doc_new_then_foreign) 99 db0).2 = db0.
Proof.
  apply (import_error_writes_nothing db0 (as_user 10 doc_new_then_foreign) 99 db0
           (SuspiciousOperation "xml process failed")).
  vm_compute. reflexivity.
Defined.

(** The loop of that import had inserted row 9 when [KeyError] was raised. *)
Example loop_wrote_before_raising :
  let r := reconcile 5 (index_polygons (polygons_of db0 5)) 99
             (default [] (parse_objects (findall doc_new_then_foreign "object") ∅ 0))
             (polygons_of db0 5) false db0 in
  r.1 = Raised KeyError
  ∧ polygons db0 !! 9 = None
  ∧ label_as_str <$> polygons r.2 !! 9 = Some (Some "dog").
Proof. vm_compute. auto. Qed.

Lemma stale_edit_key_rejected_witness :
  import 10 doc_stale 99 db0 = (Raised (SuspiciousOperation "invalid edit key"), db0).
Proof.
  refine (proj1 (stale_edit_key_rejected db0 (as_user 10 doc_stale) doc_stale 99 db0
                   5 (mk_annotation 10 1 [xab; xcd]) _) _).
  - vm_compute. reflexivity.
  - left. vm_compute. discriminate.
Defined.

(** The check under the lock: the document matched the key when it was read
    ([db0]); an export stored a new key before the transaction opened. *)
Example stale_under_the_lock :
  process_annotation_xml db0 (as_user 10 doc_new_then_foreign) doc_new_then_foreign 99 db1
  = (Raised (SuspiciousOperation "invalid edit key"), db1).
Proof. vm_compute. reflexivity. Qed.

(** C3: the document names annotation 999, which does not exist; the import
    resolves annotation 5 from the requester and the image, succeeds, and
    relabels polygon 7 of annotation 5. *)
Theorem anno_id_not_used :
  annotations db0 !! 999 = None
  ∧ find_str doc_wrong_anno "c_anno_id" = Some "999"
  ∧ target db0 (as_user 10 doc_wrong_anno) doc_wrong_anno
    = Some (5, mk_annotation 10 1 [xab; xcd])
  ∧ (import 10 doc_wrong_anno 99 db0).1 = Ok tt
  ∧ label_as_str <$> polygons (import 10 doc_wrong_anno 99 db0).2 !! 7 = Some (Some "dog")
  ∧ label_as_str <$> polygons db0 !! 7 = Some (Some "cat").
Proof. vm_compute. auto 10. Qed.

(** C6: the export of an image that has no row ends in [UnboundLocalError],
    not in [Http404]. *)
Theorem export_of_missing_image :
  images db0 !! 9 = None
  ∧ export 10 9 session_key db0 = (Raised (UnboundLocalError "image"), db0).
Proof. vm_compute. auto. Qed.

(** C7: a label element without text is read as [None] and passes the test
    against the empty string: the import is accepted, and the loop assigns
    the missing label to polygon 7 and saves it; with the element marked
    deleted on a new polygon the import is accepted as well. *)
Theorem empty_label_accepted :
  parse_objects (findall doc_no_label "object") ∅ 0
  = Some [{| ap_id := Some 7; ap_index := 0; ap_name := None; ap_deleted := false;
             ap_occluded := false; ap_attributes := ""; ap_points := [100; 200] |}]
  ∧ (import 10 doc_no_label 99 db0).1 = Ok tt
  ∧ label_as_str <$> polygons (import 10 doc_no_label 99 db0).2 !! 7 = Some None
  ∧ import 10 doc_no_label_deleted 99 db0 = (Ok tt, db0).
Proof. vm_compute. auto. Qed.

Lemma identity_precedence_witness :
  index_polygons (polygons_of db_indexed 5) !! 0 = Some 10
  ∧ match_polygon 5 (polygons_of db_indexed 5) (index_polygons (polygons_of db_indexed 5))
      (at_position 0 known_child)
    = Loaded 7 (mk_polygon 5 None "cat" 0)
  ∧ reconcile 5 (index_polygons (polygons_of db_indexed 5)) 99 [at_position 0 known_child]
      (polygons_of db_indexed 5) false db_indexed
    = reconcile 5 (index_polygons (polygons_of db_indexed 5)) 99 [at_position 4 known_child]
        (polygons_of db_indexed 5) false db_indexed.
Proof.
  split; [vm_compute; reflexivity|].
  destruct (identity_precedence 5 (index_polygons (polygons_of db_indexed 5)) 99
              [at_position 4 known_child] [at_position 0 known_child]
              (polygons_of db_indexed 5) false db_indexed) as [Hloop Hmatch].
  { constructor; [|constructor]. right. split; [by exists 7|by exists 0]. }
  split; [|exact Hloop].
  exact (Hmatch (at_position 4 known_child) 7 ltac:(left) eq_refl
           (polygons_of db_indexed 5) (index_polygons (polygons_of db_indexed 5)) 0).
Defined.


(** C9: the polygons are loaded before the transaction opens and
    [poly.save()] writes every column of the loaded object.  Polygon 7 is
    loaded unlocked; it is locked by the time the transaction opens; the
    import that relabels it succeeds and stores it unlocked again: a
    successful import has changed a [locked] flag. *)
Lemma stale_polygon_written_back :
  (locked <$> polygons_of db1 5 !! 7) = Some false
  ∧ (locked <$> polygons db1_locked !! 7) = Some true
  ∧ annotations db1_locked = annotations db1
  ∧ ∃ db',
      process_annotation_xml db1 (as_user 10 doc_edit) doc_edit 70 db1_locked = (Ok tt, db')
      ∧ (locked <$> polygons db' !! 7) = Some false
      ∧ (label_as_str <$> polygons db' !! 7) = Some (Some "lion").
Proof.
  split; [vm_compute; reflexivity|].
  split; [vm_compute; reflexivity|].
  split; [reflexivity|].
  exists (process_annotation_xml db1 (as_user 10 doc_edit) doc_edit 70 db1_locked).2.
  split; [|split]; vm_compute; reflexivity.
Qed.

Lemma import_frame_witness :
  import 10 doc_append 50 db1 = (Ok tt, db2)
  ∧ images db2 = images db1
  ∧ (∀ pk x, annotations db1 !! pk = Some x ->
       ∃ x', annotations db2 !! pk = Some x'
             ∧ edit_key x' = edit_key x ∧ a_locked x' = a_locked x)
  ∧ (∀ pk p, polygons db1 !! pk = Some p ->
       polygons db2 !! pk = Some p
       ∨ ∃ x, x ∈ appended ∧ ap_id x = Some pk
              ∧ polygons db2 !! pk = Some (assign p x 50))
  ∧ (∀ pk p', polygons db1 !! pk = None -> polygons db2 !! pk = Some p' ->
       ∃ x, x ∈ appended ∧ ap_id x = None
            ∧ p' = assign (new_Polygon 5 (ap_index x)) x 50)
  ∧ process_annotation_xml db1 (as_user 10 doc_append) (without_verified doc_append) 50 db1
    = (Ok tt, db2).
Proof.
  assert (Hok : import 10 doc_append 50 db1 = (Ok tt, db2)) by (vm_compute; reflexivity).
  split; [exact Hok|].
  destruct (import_frame db1 (as_user 10 doc_append) doc_append 50 db1 db2
              5 (mk_annotation 10 1 session_key) Hok)
    as [(aps & Haps & Hi & _ & _ & Ha & Hp & Hn) Hv].
  { vm_compute. reflexivity. }
  { apply polygons_of_subseteq. }
  assert (Happ : parse_objects (findall doc_append "object") ∅ 0 = Some appended)
    by (vm_compute; reflexivity).
  rewrite Happ in Haps. injection Haps as <-.
  split; [exact Hi|]. split.
  { intros pk x Hx. destruct (Ha pk x Hx) as (x' & Hx' & Hk & Hl & _). eauto. }
  split.
  { intros pk p Hpk. destruct (Hp pk p Hpk) as [Hsame | (x & Hx & [q Hq] & Hrow)]; [by left|].
    right. exists x. split; [exact Hx|]. split; [|exact Hrow].
    unfold match_polygon in Hq. destruct (ap_id x) as [id|] eqn:Eid.
    - destruct (polygons_of db1 5 !! id) as [q0|]; [by injection Hq as -> _|].
      destruct (ap_deleted x); discriminate Hq.
    - exfalso. unfold appended in Hx.
      apply elem_of_cons in Hx as [-> | Hx]; [discriminate Eid|].
      apply elem_of_cons in Hx as [-> | Hx]; [vm_compute in Hq; discriminate Hq|].
      by apply elem_of_nil in Hx. }
  split.
  { intros pk p' Hnone Hsome. destruct (Hn pk p' Hnone Hsome) as (x & Hx & Hm & Hrow).
    exists x. split; [exact Hx|]. split; [|exact Hrow].
    by destruct (match_polygon_Created _ _ _ _ _ Hm) as (_ & ? & _). }
  rewrite Hv. exact Hok.
Defined.

Lemma import_containment_witness :
  foreign db0 5 8
  ∧ polygons_of db0 5 !! 8 = None
  ∧ ∃ e, import 10 doc_new_then_foreign 99 db0 = (Raised e, db0).
Proof.
  assert (Hf : foreign db0 5 8) by (vm_compute; left; discriminate).
  split; [exact Hf|].
  destruct (import_containment (as_user 10 doc_new_then_foreign) doc_new_then_foreign 99 db0
              5 (mk_annotation 10 1 [xab; xcd])) as (_ & _ & Hforeign).
  { vm_compute. reflexivity. }
  destruct (Hforeign 8 [new_child; foreign_child] foreign_child Hf) as [Hnone Hfail].
  - vm_compute. reflexivity.
  - right. left.
  - reflexivity.
  - split; [exact Hnone|exact Hfail].
Defined.

End Evaluation.

(** * The further properties on the requests of the session *)

Module Session.
Import Fixture.
#[local] Existing Instance Plain.hundredths.
#[local] Existing Instance Plain.builtins.

Lemma parse_objects_positions_witness :
  length appended = length (findall doc_append "object")
  ∧ ∀ n x, appended !! n = Some x -> ap_index x = Z.of_nat n.
Proof.
  apply (parse_objects_positions (findall doc_append "object") appended).
  vm_compute. reflexivity.
Defined.

Lemma duplicate_identity_rejected_witness :
  process_annotation_xml db0 (as_user 10 doc_duplicate) doc_duplicate 99 db0
  = (Raised (SuspiciousOperation "invalid polygon"), db0).
Proof.
  apply (duplicate_identity_rejected db0 (as_user 10 doc_duplicate) doc_duplicate 99 db0
           5 (mk_annotation 10 1 [xab; xcd]) 0%nat 1%nat
           (object (Some "7") (leaf "name" "cat") "0")
           (object (Some "7") (leaf "name" "dog") "0") 7);
    try (vm_compute; reflexivity).
  lia.
Defined.

Lemma export_frame_witness :
  ∃ pk a,
    annotations db0 !! pk = Some a
    ∧ images db1 = images db0
    ∧ annotations db1 = <[pk := set_edit_key session_key a]> (annotations db0)
    ∧ index_polygons (polygons_of db1 pk) = ∅.
Proof.
  destruct (export_frame {| user := 10; body := None |} 1 session_key db0 exported db1)
    as (pk & a & Ha & _ & _ & _ & Hi & Hk & _ & Hidx).
  { vm_compute. reflexivity. }
  exists pk, a. auto.
Defined.

Lemma export_failure_witness :
  ∃ pk a, annotations db_unlabelled !! pk = Some a
    ∧ (export 10 1 session_key db_unlabelled).2
      = set_polygons (clear_indices pk)
          (set_annotations (insert pk (set_edit_key session_key a)) db_unlabelled).
Proof.
  destruct (export_failure {| user := 10; body := None |} 1 session_key db_unlabelled
              AttributeError (export 10 1 session_key db_unlabelled).2)
    as [[_ [H | [H | H]]] | [_ H]]; try discriminate H.
  { vm_compute. reflexivity. }
  exact H.
Defined.

Lemma export_succeeds_iff_witness :
  ∃ img pk a,
    images db0 !! 1 = Some img ∧ visible img = true
    ∧ annotations db0 !! pk = Some a
    ∧ (∀ pk' a', annotations db0 !! pk' = Some a' -> annotator a' = 10 ->
         image a' = 1 -> a_deleted a' = false -> pk' = pk)
    ∧ ∀ k p, polygons_of db0 pk !! k = Some p ->
        is_Some (label_as_str p) ∧ Nat.Even (length (points p)).
Proof.
  destruct (proj1 (export_succeeds_iff {| user := 10; body := None |} 1 session_key db0))
    as (img & pk & a & Hi & Hv & Ha & _ & _ & _ & Hu & Hp).
  { exists exported, db1. vm_compute. reflexivity. }
  exists img, pk, a. auto.
Defined.

Lemma export_twice_witness :
  ∃ xml2 db2,
    export 10 1 [x01; x02] db1 = (Ok xml2, db2)
    ∧ images db2 = images db1 ∧ polygons db2 = polygons db1.
Proof.
  destruct (export_twice {| user := 10; body := None |} 1 session_key [x01; x02] db0
              exported db1)
    as (xml2 & d2 & pk & objects & H2 & Hi & Hp & _).
  { vm_compute. reflexivity. }
  exists xml2, d2. auto.
Defined.

Lemma import_outcomes_witness :
  ∃ msg,
    (post_annotation_xml db0 (as_user 10 doc_new_then_foreign) 99 db0).1
    = Raised (SuspiciousOperation msg)
    ∧ msg ∈ import_messages.
Proof.
  destruct (import_outcomes db0 (as_user 10 doc_new_then_foreign) 99 db0
              (post_annotation_xml db0 (as_user 10 doc_new_then_foreign) 99 db0).1
              (post_annotation_xml db0 (as_user 10 doc_new_then_foreign) 99 db0).2)
    as [H | (msg & H & Hin)].
  { vm_compute. reflexivity. }
  - vm_compute in H. discriminate H.
  - exists msg. auto.
Defined.

Lemma import_success_requires_witness :
  ∃ anno_pk a anno_polygons,
    target db1 (as_user 10 doc_append) doc_append = Some (anno_pk, a)
    ∧ submitted_key doc_append = Some (edit_key a)
    ∧ parse_objects (findall doc_append "object") ∅ 0 = Some anno_polygons
    ∧ ∀ x id, x ∈ anno_polygons -> ap_id x = Some id -> ap_deleted x = false ->
        is_Some (polygons_of db1 anno_pk !! id).
Proof.
  apply (import_success_requires (as_user 10 doc_append) doc_append 50 db1 db2).
  vm_compute. reflexivity.
Defined.

Lemma import_adds_rows_witness :
  dom (polygons db1) ⊆ dom (polygons db2)
  ∧ (size (polygons db2) ≤ size (polygons db1) + 1)%nat.
Proof.
  apply (import_adds_rows (as_user 10 doc_append) doc_append 50 db1 db2).
  vm_compute. reflexivity.
Defined.

Lemma import_keeps_points_paired_witness :
  even_points db1 ∧ even_points db2.
Proof.
  assert (H1 : even_points db1) by (apply even_points_decide; vm_compute; reflexivity).
  split; [exact H1|].
  apply (import_keeps_points_paired db1 (as_user 10 doc_append) doc_append 50 db1
           (Ok tt) db2); [|exact H1].
  vm_compute. reflexivity.
Defined.

Lemma import_keeps_indices_unique_witness :
  indices_unique db2 5 ∧ indices_unique db3 5.
Proof.
  assert (H2 : indices_unique db2 5)
    by (apply indices_unique_decide; vm_compute; reflexivity).
  split; [exact H2|].
  apply (import_keeps_indices_unique (as_user 10 doc_relabel) doc_relabel 60 db2);
    [|exact H2].
  vm_compute. reflexivity.
Defined.

Lemma import_applies_fields_witness :
  ∃ p', polygons (import 10 doc_edit 70 db1).2 !! 7 = Some p'
    ∧ kept (clear_index (mk_polygon 5 (Some 3) "cat" 0)) p'
    ∧ applied (clear_index (mk_polygon 5 (Some 3) "cat" 0)) p' edited_child.
Proof.
  apply (import_applies_fields (as_user 10 doc_edit) doc_edit 70 db1
           (import 10 doc_edit 70 db1).2 5 (mk_annotation 10 1 session_key)
           [edited_child] edited_child 7);
    try (vm_compute; reflexivity).
  left.
Defined.

Lemma lookup_image_iff_witness :
  lookup_image db0 doc_append = Some (1, {| visible := true |}).
Proof.
  apply (proj2 (lookup_image_iff db0 doc_append 1 {| visible := true |})).
  exists "1". repeat split; vm_compute; reflexivity.
Defined.

Lemma export_escapes_text_witness :
  ∃ name attributes,
    Some name = xml_escape <$> label_as_str markup_polygon
    ∧ attributes = xml_escape (notes markup_polygon)
    ∧ occurs "<" name = false ∧ occurs ">" name = false
    ∧ occurs "<" attributes = false ∧ occurs ">" attributes = false.
Proof.
  destruct (export_escapes_text (mk_annotation 10 1 session_key) 7 markup_polygon
              (match polygon_xml (mk_annotation 10 1 session_key) 7 markup_polygon with
               | Ok strs => strs | Raised _ => [] end))
    as (name & attributes & _ & _ & H).
  { vm_compute. reflexivity. }
  exists name, attributes. exact H.
Defined.

End Session.
